(** * iphone-autobrightness-sync: the brightness server, embedded and verified

A shallow embedding of [brightness_server.py]: the calibration function
(lookup-table interpolation and the closed-form curves), the level and
time-window selection, the stepped transition and the numeric branch of
the [POST /brightness] route.

Numbers.  Python [int]s are [Z].  Python [float]s are modelled by exact
rationals [Q]: every finite double is a rational, and the arithmetic
below is the real-number arithmetic of the source expressions, without
the rounding of binary64.  Comparisons, [max], [min] and [int()] follow
the Python builtins.  The module [Binary64] repeats the lookup-table curve
with IEEE 754 doubles, and the last section compares the two.

Effects.  The display library [screen_brightness_control] is an external
collaborator; it is modelled by a [World] that says what the next read
yields, which writes fail, and that logs every write. *)

From Stdlib Require Import QArith Qround Lqa Lia ZArith Ascii String List Bool SpecFloat.
From stdpp Require Import gmap strings.
Import ListNotations.

Local Open Scope string_scope.
Local Open Scope list_scope.
Local Open Scope Z_scope.

(** ** Python values, builtins and exceptions *)

Module Py.

Inductive exn : Type :=
| IndexError
| ZeroDivisionError
| ValueError
| OSError (errno : nat).

Inductive result (A : Type) : Type :=
| Return (a : A)
| Raise (e : exn).
Arguments Return {A} a.
Arguments Raise {A} e.

Definition bind {A B : Type} (m : result A) (k : A -> result B) : result B :=
  match m with
  | Return a => k a
  | Raise e => Raise e
  end.

Definition Qlt_bool (a b : Q) : bool := negb (Qle_bool b a).

(** [max(a, b)] returns [a] unless [b > a]. *)
Definition max (a b : Q) : Q := if Qlt_bool a b then b else a.

(** [min(a, b)] returns [a] unless [b < a]. *)
Definition min (a b : Q) : Q := if Qlt_bool b a then b else a.

(** [int(q)] truncates toward zero. *)
Definition int (q : Q) : Z := if Qle_bool 0 q then Qfloor q else Qceiling q.

(** [a / b], true division. *)
Definition truediv (a b : Q) : result Q :=
  if Qeq_bool b 0 then Raise ZeroDivisionError else Return (a / b)%Q.

(** [l[i]] for a non-negative index. *)
Definition index {A : Type} (l : list A) (i : nat) : result A :=
  match l !! i with
  | Some a => Return a
  | None => Raise IndexError
  end.

(** [l[-1]]. *)
Definition index_last {A : Type} (l : list A) : result A :=
  match last l with
  | Some a => Return a
  | None => Raise IndexError
  end.

(** [range(n)]. *)
Definition range (n : Z) : list Z := map Z.of_nat (seq 0 (Z.to_nat n)).

End Py.

Import Py (Return, Raise).

(** The exception monad, with stdpp's [x ← m; k] notation. *)
#[global] Instance result_ret : MRet Py.result := fun _ a => Return a.
#[global] Instance result_bind : MBind Py.result := fun _ _ k m => Py.bind m k.

(** ** Configuration: the [CONFIG] dictionary *)

(** [CONFIG['display_calibration']]. *)
Record DisplayCalibration : Type := {
  iphone_max_nits : Q;
  laptop_max_nits : Q;
  iphone_gamma : Q;
  laptop_gamma : Q;
  brightness_curve : string;
  min_brightness : Z;
  max_brightness : Z;
  calibration_lut : list (Q * Q)
}.

(** One entry of [CONFIG['brightness_ranges']]. *)
Record LevelRange : Type := { range_min : Z; range_max : Z }.

(** One entry of [CONFIG['time_based_brightness']]. *)
Record TimeWindow : Type := { start : string; end_ : string; level : string }.

Record Config : Type := {
  display_calibration : DisplayCalibration;
  brightness_ranges : gmap string LevelRange;
  time_based_brightness : list (string * TimeWindow);
  smooth_transition : bool;
  transition_steps : Z;
  transition_delay : Q
}.

Definition CONFIG_display_calibration : DisplayCalibration := {|
  iphone_max_nits := 625;
  laptop_max_nits := 300;
  iphone_gamma := 2.2;
  laptop_gamma := 2.2;
  brightness_curve := "lut";
  min_brightness := 5;
  max_brightness := 95;
  calibration_lut := [
    (0.0, 0.05);
    (0.05, 0.10);
    (0.1, 0.18);
    (0.2, 0.32);
    (0.3, 0.45);
    (0.4, 0.58);
    (0.5, 0.68);
    (0.6, 0.75);
    (0.7, 0.82);
    (0.8, 0.88);
    (0.9, 0.92);
    (1.0, 0.95)
  ]%Q
|}.

Definition CONFIG_brightness_ranges : gmap string LevelRange :=
  list_to_map [
    ("very_dark", {| range_min := 5; range_max := 15 |});
    ("dark", {| range_min := 15; range_max := 30 |});
    ("dim", {| range_min := 30; range_max := 50 |});
    ("normal", {| range_min := 50; range_max := 70 |});
    ("bright", {| range_min := 70; range_max := 90 |});
    ("very_bright", {| range_min := 90; range_max := 100 |})
  ].

(** A Python dict iterates in insertion order, so the windows are kept as an
    ordered list of items. *)
Definition CONFIG_time_based_brightness : list (string * TimeWindow) := [
  ("night", {| start := "22:00"; end_ := "06:00"; level := "very_dark" |});
  ("evening", {| start := "18:00"; end_ := "22:00"; level := "dim" |});
  ("morning", {| start := "06:00"; end_ := "09:00"; level := "normal" |});
  ("day", {| start := "09:00"; end_ := "18:00"; level := "bright" |})
].

Definition CONFIG : Config := {|
  display_calibration := CONFIG_display_calibration;
  brightness_ranges := CONFIG_brightness_ranges;
  time_based_brightness := CONFIG_time_based_brightness;
  smooth_transition := true;
  transition_steps := 10;
  transition_delay := 0.1
|}.

(** The same configuration with another [brightness_curve]. *)
Definition with_curve (cal : DisplayCalibration) (curve : string) : DisplayCalibration := {|
  iphone_max_nits := iphone_max_nits cal;
  laptop_max_nits := laptop_max_nits cal;
  iphone_gamma := iphone_gamma cal;
  laptop_gamma := laptop_gamma cal;
  brightness_curve := curve;
  min_brightness := min_brightness cal;
  max_brightness := max_brightness cal;
  calibration_lut := calibration_lut cal
|}.

(** ** The math library *)

(** The built-in [pow] and [math.log10].  Their values are irrational in
    general, so they stay abstract: the development holds for any two
    functions.  They are total here because, with the configured constants,
    the code calls [pow] on a non-negative base and [log10] on a number
    above 1 only, where Python returns a float. *)
Class MathLib : Type := {
  pow : Q -> Q -> Q;
  log10 : Q -> Q
}.

(** ** The clock *)

(** [datetime.time]: ordered as the tuple (hour, minute, second, microsecond). *)
Record dt_time : Type := {
  hour : Z;
  minute : Z;
  second : Z;
  microsecond : Z
}.

Definition time_le (a b : dt_time) : bool :=
  if hour a <? hour b then true else if hour b <? hour a then false
  else if minute a <? minute b then true else if minute b <? minute a then false
  else if second a <? second b then true else if second b <? second a then false
  else microsecond a <=? microsecond b.

Definition digit (a : ascii) : option Z :=
  let n := Z.of_nat (nat_of_ascii a) in
  if (48 <=? n) && (n <=? 57) then Some (n - 48) else None.

Definition two_digits (a b : ascii) : option Z :=
  match digit a, digit b with
  | Some d1, Some d2 => Some (10 * d1 + d2)
  | _, _ => None
  end.

(** [datetime.time.fromisoformat], for the forms [HH:MM] and [HH:MM:SS]
    (the configuration uses the first); any other text raises [ValueError]. *)
Definition fromisoformat (s : string) : Py.result dt_time :=
  match s with
  | String h1 (String h2 (String ":" (String m1 (String m2 rest)))) =>
      match two_digits h1 h2, two_digits m1 m2 with
      | Some h, Some m =>
          match rest with
          | "" =>
              if (h <? 24) && (m <? 60)
              then Return {| hour := h; minute := m; second := 0; microsecond := 0 |}
              else Raise Py.ValueError
          | String ":" (String s1 (String s2 "")) =>
              match two_digits s1 s2 with
              | Some sec =>
                  if (h <? 24) && (m <? 60) && (sec <? 60)
                  then Return {| hour := h; minute := m; second := sec; microsecond := 0 |}
                  else Raise Py.ValueError
              | None => Raise Py.ValueError
              end
          | _ => Raise Py.ValueError
          end
      | _, _ => Raise Py.ValueError
      end
  | _ => Raise Py.ValueError
  end.

(** ** The display and the controller's state *)

(** What [sbc.get_brightness()] does when called: it raises, or returns a
    list of percentages (one per monitor), a single percentage, or [None]. *)
Inductive Reading : Type :=
| ReadRaises (e : Py.exn)
| ReadList (values : list Z)
| ReadInt (value : Z)
| ReadNone.

(** A call of [sbc.set_brightness(v)], as it ended. *)
Inductive SetCall : Type :=
| SetOk (v : Z)
| SetRaised (v : Z) (e : Py.exn).

(** The display: [fault n v] tells whether the write of [v] raises when [n]
    writes were attempted before it; [calls] logs the writes, oldest first.
    No method reads the display after writing it, so the model leaves open
    how a write changes later readings. *)
Record World : Type := {
  reading : Reading;
  fault : nat -> Z -> option Py.exn;
  calls : list SetCall
}.

(** The display together with the controller's [current_brightness] field. *)
Record Machine : Type := {
  os : World;
  current_brightness : Z
}.

(** State and exceptions: the state survives a raise. *)
Definition Effect (A : Type) : Type := Machine -> Py.result A * Machine.

#[global] Instance effect_ret : MRet Effect := fun _ a m => (Return a, m).
#[global] Instance effect_bind : MBind Effect := fun _ _ k body m =>
  match body m with
  | (Return a, m') => k a m'
  | (Raise e, m') => (Raise e, m')
  end.

Definition raise {A : Type} (e : Py.exn) : Effect A := fun m => (Raise e, m).

(** [try: body / except Exception as e: handler]. *)
Definition try_except {A : Type} (body : Effect A) (handler : Py.exn -> Effect A) : Effect A :=
  fun m =>
    match body m with
    | (Return a, m') => (Return a, m')
    | (Raise e, m') => handler e m'
    end.

Definition lift {A : Type} (r : Py.result A) : Effect A := fun m => (r, m).

(** [sbc.set_brightness(v)]. *)
Definition sbc_set_brightness (v : Z) : Effect unit := fun m =>
  let w := os m in
  match fault w (length (calls w)) v with
  | Some e =>
      (Raise e,
       {| os := {| reading := reading w; fault := fault w; calls := calls w ++ [SetRaised v e] |};
          current_brightness := current_brightness m |})
  | None =>
      (Return tt,
       {| os := {| reading := reading w; fault := fault w; calls := calls w ++ [SetOk v] |};
          current_brightness := current_brightness m |})
  end.

(** [self.current_brightness = v]. *)
Definition store_current_brightness (v : Z) : Effect unit := fun m =>
  (Return tt, {| os := os m; current_brightness := v |}).

(** ** The class [BrightnessController] *)

Module BrightnessController.

(** [get_current_brightness]: the [try] body and its [except] clause. *)
Definition get_current_brightness (w : World) : Z :=
  match reading w with
  | ReadRaises _ => 50
  | ReadList brightness =>
      match brightness with
      | b :: _ => b
      | [] => 50
      end
  | ReadInt brightness => if brightness =? 0 then 50 else brightness
  | ReadNone => 50
  end.

(** The loop [for i in range(steps)] of [_smooth_brightness_change];
    [time.sleep(delay)] changes nothing in the model. *)
Fixpoint smooth_for (current : Z) (step_size : Q) (indices : list Z) : Effect unit :=
  match indices with
  | [] => mret tt
  | i :: rest =>
      let new_brightness := Py.int (inject_Z current + step_size * inject_Z (i + 1))%Q in
      let new_brightness := Z.max 1 (Z.min 100 new_brightness) in
      _ ← sbc_set_brightness new_brightness;
      smooth_for current step_size rest
  end.

(** [_smooth_brightness_change(self, target)]. *)
Definition _smooth_brightness_change (cfg : Config) (target : Z) : Effect unit := fun m =>
  let current := get_current_brightness (os m) in
  let steps := transition_steps cfg in
  if current =? target then (Return tt, m)
  else
    (step_size ← lift (Py.truediv (inject_Z (target - current)) (inject_Z steps));
     _ ← smooth_for current step_size (Py.range steps);
     _ ← sbc_set_brightness target;
     store_current_brightness target) m.

(** [set_brightness(self, target, smooth=True)]: the handler logs the
    exception and raises it again. *)
Definition set_brightness (cfg : Config) (target : Z) (smooth : bool) : Effect unit :=
  let target := Z.max 1 (Z.min 100 target) in
  try_except
    (if smooth && smooth_transition cfg then
       _smooth_brightness_change cfg target
     else
       (_ ← sbc_set_brightness target;
        store_current_brightness target))
    (fun e => raise e).

(** [get_brightness_for_level(self, level)]; [//] is the floor division. *)
Definition get_brightness_for_level (cfg : Config) (level : string) : Z :=
  match brightness_ranges cfg !! level with
  | Some range_config => (range_min range_config + range_max range_config) / 2
  | None => 50
  end.

Section WithMathLib.

Context `{ML : MathLib}.

(** The body of [for i in range(len(lut) - 1)]: [Some v] when the segment
    brackets the input and the loop breaks with [laptop_brightness = v]. *)
Definition lut_segment (lut : list (Q * Q)) (c : Q) (i : nat) : Py.result (option Q) :=
  '(x1, y1) ← Py.index lut i;
  '(x2, y2) ← Py.index lut (i + 1);
  if Qle_bool x1 c && Qle_bool c x2 then
    let ratio := if negb (Qeq_bool x2 x1) then ((c - x1) / (x2 - x1))%Q else 0%Q in
    Return (Some (y1 + ratio * (y2 - y1))%Q)
  else Return None.

(** The loop over the indices; [Return None] when it ends without [break]. *)
Fixpoint lut_for (lut : list (Q * Q)) (c : Q) (indices : list nat) : Py.result (option Q) :=
  match indices with
  | [] => Return None
  | i :: rest =>
      found ← lut_segment lut c i;
      match found with
      | Some v => Return (Some v)
      | None => lut_for lut c rest
      end
  end.

(** The [else] clause of the loop. *)
Definition lut_else (lut : list (Q * Q)) (c : Q) : Py.result Q :=
  first ← Py.index lut 0;
  if Qle_bool c (fst first) then
    first' ← Py.index lut 0; Return (snd first')
  else
    final ← Py.index_last lut; Return (snd final).

(** The branch [brightness_curve == 'lut']: the loop with its [else]. *)
Definition lut_brightness (lut : list (Q * Q)) (c : Q) : Py.result Q :=
  found ← lut_for lut c (seq 0 (length lut - 1));
  match found with
  | Some v => Return v
  | None => lut_else lut c
  end.

(** The branch [brightness_curve == 'perceptual']. *)
Definition perceptual_brightness (cal : DisplayCalibration) (c : Q) : Py.result Q :=
  let iphone_nits := (iphone_max_nits cal * pow c (iphone_gamma cal))%Q in
  let target_nits := Py.min iphone_nits (laptop_max_nits cal) in
  base ← Py.truediv target_nits (laptop_max_nits cal);
  exponent ← Py.truediv 1 (laptop_gamma cal);
  Return (pow base exponent).

(** The branch [brightness_curve == 'logarithmic']. *)
Definition logarithmic_brightness (cal : DisplayCalibration) (c : Q) : Py.result Q :=
  if Py.Qlt_bool 0 c then
    let log_scale := log10 (c * 9 + 1)%Q in
    scale ← Py.truediv (laptop_max_nits cal) (iphone_max_nits cal);
    Return (log_scale * scale)%Q
  else Return 0%Q.

(** The last branch, the linear curve. *)
Definition linear_brightness (cal : DisplayCalibration) (c : Q) : Py.result Q :=
  nits_ratio ← Py.truediv (laptop_max_nits cal) (iphone_max_nits cal);
  inverse ← Py.truediv 1 nits_ratio;
  Return (c * inverse)%Q.

(** [result = laptop_brightness * 100], the clamp to the configured floor
    and ceiling, and [int(result)]. *)
Definition to_percentage (cal : DisplayCalibration) (laptop_brightness : Q) : Z :=
  let result := (laptop_brightness * 100)%Q in
  let result := Py.max (inject_Z (min_brightness cal))
                       (Py.min (inject_Z (max_brightness cal)) result) in
  Py.int result.

(** [calibrate_brightness(self, iphone_brightness)]. *)
Definition calibrate_brightness (cal : DisplayCalibration) (iphone_brightness : Q) : Py.result Z :=
  let iphone_brightness := Py.max 0.0 (Py.min 1.0 iphone_brightness) in
  laptop_brightness ←
    (if String.eqb (brightness_curve cal) "lut" then
       lut_brightness (calibration_lut cal) iphone_brightness
     else if String.eqb (brightness_curve cal) "perceptual" then
       perceptual_brightness cal iphone_brightness
     else if String.eqb (brightness_curve cal) "logarithmic" then
       logarithmic_brightness cal iphone_brightness
     else
       linear_brightness cal iphone_brightness);
  Return (to_percentage cal laptop_brightness).

End WithMathLib.

(** The test of one window in [get_time_based_brightness]. *)
Definition window_matches (period : string) (start_time end_time now : dt_time) : bool :=
  if String.eqb period "night"
  then time_le start_time now || time_le now end_time
  else time_le start_time now && time_le now end_time.

(** The loop of [get_time_based_brightness] over
    [CONFIG['time_based_brightness'].items()], with the [return] that
    follows it. *)
Fixpoint time_based_for (cfg : Config) (now : dt_time)
    (items : list (string * TimeWindow)) : Py.result Z :=
  match items with
  | [] => Return (get_brightness_for_level cfg "normal")
  | (period, config) :: rest =>
      start_time ← fromisoformat (start config);
      end_time ← fromisoformat (end_ config);
      if window_matches period start_time end_time now
      then Return (get_brightness_for_level cfg (level config))
      else time_based_for cfg now rest
  end.

(** [get_time_based_brightness(self)]; [now] is the reading of
    [datetime.now().time()]. *)
Definition get_time_based_brightness (cfg : Config) (now : dt_time) : Py.result Z :=
  time_based_for cfg now (time_based_brightness cfg).

End BrightnessController.

(** ** The route [POST /brightness] *)

Module Routes.

Section WithMathLib.

Context `{ML : MathLib}.

(** The value computed for a numeric [brightness] field. *)
Definition brightness_value (cal : DisplayCalibration) (brightness : Q) : Py.result Z :=
  if Qle_bool brightness 1 then
    BrightnessController.calibrate_brightness cal brightness
  else
    BrightnessController.calibrate_brightness cal (brightness / 100)%Q.

End WithMathLib.

End Routes.

(** ** The specification's view of the lookup table *)

(** The linear interpolation of the segment from [(x1, y1)] to [(x2, y2)]. *)
Definition interpolate (x1 y1 x2 y2 c : Q) : Q :=
  (y1 + ((c - x1) / (x2 - x1)) * (y2 - y1))%Q.

(** The piecewise-linear mapping of a table [(x0, y0) :: rest]: the first
    target before the first breakpoint, the last target after the last one,
    the interpolation of the bracketing segment in between. *)
Fixpoint piecewise (x0 y0 : Q) (rest : list (Q * Q)) (c : Q) : Q :=
  match rest with
  | [] => y0
  | (x1, y1) :: rest' =>
      if Py.Qlt_bool c x0 then y0
      else if Qle_bool c x1 then interpolate x0 y0 x1 y1 c
      else piecewise x1 y1 rest' c
  end.

(** Strictly increasing, as the sources of a calibration table are. *)
Fixpoint increasing (xs : list Q) : Prop :=
  match xs with
  | a :: (b :: _) as tl => (a < b)%Q /\ increasing tl
  | _ => True
  end.

(** Non-decreasing, as the targets of the configured table are. *)
Fixpoint nondecreasing (ys : list Q) : Prop :=
  match ys with
  | a :: (b :: _) as tl => (a <= b)%Q /\ nondecreasing tl
  | _ => True
  end.

(** The loop of the lookup, by recursion on the table: the first segment
    that brackets [c], if any. *)
Fixpoint lut_scan (lut : list (Q * Q)) (c : Q) : option Q :=
  match lut with
  | (x1, y1) :: tl =>
      match tl with
      | (x2, y2) :: _ =>
          if Qle_bool x1 c && Qle_bool c x2 then
            let ratio := if negb (Qeq_bool x2 x1) then ((c - x1) / (x2 - x1))%Q else 0%Q in
            Some (y1 + ratio * (y2 - y1))%Q
          else lut_scan tl c
      | [] => None
      end
  | [] => None
  end.

(** The value the lookup assigns to [laptop_brightness]. *)
Definition lut_value (x0 y0 : Q) (rest : list (Q * Q)) (c : Q) : Q :=
  match lut_scan ((x0, y0) :: rest) c with
  | Some v => v
  | None => if Qle_bool c x0 then y0 else snd (List.last rest (x0, y0))
  end.

(** ** The specification's view of windows, transitions and failures *)

(** The specification's test of a window: the night window wraps around
    midnight, the others are plain intervals. *)
Definition in_window (now : dt_time) (item : string * TimeWindow) : bool :=
  match fromisoformat (start (snd item)), fromisoformat (end_ (snd item)) with
  | Return start_time, Return end_time =>
      if String.eqb (fst item) "night"
      then time_le start_time now || time_le now end_time
      else time_le start_time now && time_le now end_time
  | _, _ => false
  end.

(** Both bounds of the window are times. *)
Definition well_formed_window (item : string * TimeWindow) : Prop :=
  (exists t, fromisoformat (start (snd item)) = Return t) /\
  (exists t, fromisoformat (end_ (snd item)) = Return t).

(** The machine after the further writes [new]. *)
Definition with_calls (m : Machine) (new : list SetCall) : Machine :=
  {| os := {| reading := reading (os m); fault := fault (os m);
              calls := calls (os m) ++ new |};
     current_brightness := current_brightness m |}.

(** The value applied at step [i] of a transition: [current] plus [i + 1]
    steps of the same size, truncated and clamped to [1, 100]. *)
Definition step_value (current : Z) (step_size : Q) (i : Z) : Z :=
  Z.max 1 (Z.min 100 (Py.int (inject_Z current + step_size * inject_Z (i + 1))%Q)).


(** Every failed write recorded by [body] is the exception [body] raises. *)
Definition propagates {A : Type} (body : Effect A) : Prop :=
  forall (m : Machine) (r : Py.result A) (m' : Machine),
    body m = (r, m') ->
    exists new : list SetCall,
      calls (os m') = calls (os m) ++ new /\
      forall (v : Z) (e : Py.exn), In (SetRaised v e) new -> r = Raise e.

(** ** The lookup-table curve under IEEE 754 binary64 *)

(** The lookup-table branch of [calibrate_brightness] and the numeric branch
    of the route once more, with every operation rounded to a double as
    Python does; it serves to see where the exact model and the doubles
    part. *)
Module Binary64.

Definition float : Type := spec_float.

Definition of_int (z : Z) : float := binary_normalize 53 1024 z 0 false.
Definition add : float -> float -> float := SFadd 53 1024.
Definition sub : float -> float -> float := SFsub 53 1024.
Definition mul : float -> float -> float := SFmul 53 1024.
Definition div : float -> float -> float := SFdiv 53 1024.

(** The next double above and the next double below. *)
Definition succ : float -> float := SFsucc 53 1024.
Definition pred : float -> float := SFpred 53 1024.

(** A decimal literal: the correctly rounded quotient of two integers that
    are doubles themselves. *)
Definition literal (q : Q) : float := div (of_int (Qnum q)) (of_int (Zpos (Qden q))).

Definition max (a b : float) : float := if SFltb a b then b else a.
Definition min (a b : float) : float := if SFltb b a then b else a.

(** [int(x)] for a finite [x]. *)
Definition int (x : float) : Z :=
  match x with
  | S754_finite s m e =>
      let magnitude := if 0 <=? e then Zpos m * 2 ^ e else Zpos m / 2 ^ (- e) in
      if s then - magnitude else magnitude
  | _ => 0
  end.

Definition lut_segment (lut : list (float * float)) (c : float) (i : nat)
    : Py.result (option float) :=
  '(x1, y1) ← Py.index lut i;
  '(x2, y2) ← Py.index lut (i + 1);
  if SFleb x1 c && SFleb c x2 then
    let ratio := if negb (SFeqb x2 x1) then div (sub c x1) (sub x2 x1) else of_int 0 in
    Return (Some (add y1 (mul ratio (sub y2 y1))))
  else Return None.

Fixpoint lut_for (lut : list (float * float)) (c : float) (indices : list nat)
    : Py.result (option float) :=
  match indices with
  | [] => Return None
  | i :: rest =>
      found ← lut_segment lut c i;
      match found with
      | Some v => Return (Some v)
      | None => lut_for lut c rest
      end
  end.

Definition lut_else (lut : list (float * float)) (c : float) : Py.result float :=
  first ← Py.index lut 0;
  if SFleb c (fst first) then
    first' ← Py.index lut 0; Return (snd first')
  else
    final ← Py.index_last lut; Return (snd final).

Definition lut_brightness (lut : list (float * float)) (c : float) : Py.result float :=
  found ← lut_for lut c (seq 0 (length lut - 1));
  match found with
  | Some v => Return v
  | None => lut_else lut c
  end.

(** [calibrate_brightness] with [brightness_curve = 'lut']. *)
Definition calibrate_brightness (cal : DisplayCalibration) (iphone_brightness : float)
    : Py.result Z :=
  let lut := map (fun p => (literal (fst p), literal (snd p))) (calibration_lut cal) in
  let iphone_brightness := max (literal 0.0) (min (literal 1.0) iphone_brightness) in
  laptop_brightness ← lut_brightness lut iphone_brightness;
  let result := mul laptop_brightness (of_int 100) in
  let result := max (of_int (min_brightness cal)) (min (of_int (max_brightness cal)) result) in
  Return (int result).

Definition brightness_value (cal : DisplayCalibration) (brightness : float) : Py.result Z :=
  if SFleb brightness (of_int 1) then
    calibrate_brightness cal brightness
  else
    calibrate_brightness cal (div brightness (of_int 100)).

End Binary64.

(** The inputs [0/n, 1/n, ..., n/n]. *)
Definition grid (n : nat) : list Q :=
  map (fun k => Z.of_nat k # Pos.of_nat n) (seq 0 (S n)).

Fixpoint sorted (l : list Z) : bool :=
  match l with
  | a :: (b :: _) as tl => (a <=? b) && sorted tl
  | _ => true
  end.

(** ** Sample inputs *)

(** A sample math library, to run the definitions on concrete inputs; the
    lookup-table curve never calls it. *)
Definition sample_math : MathLib := {| pow := fun base _ => base; log10 := fun a => (a - 1)%Q |}.


(** A configuration whose only window is the day. *)
Definition day_only_config : Config := {|
  display_calibration := CONFIG_display_calibration;
  brightness_ranges := CONFIG_brightness_ranges;
  time_based_brightness :=
    [("day", {| start := "09:00"; end_ := "18:00"; level := "bright" |})];
  smooth_transition := true;
  transition_steps := 10;
  transition_delay := 0.1
|}.

(** The clock reading [h:m:00]. *)
Definition clock (h m : Z) : dt_time :=
  {| hour := h; minute := m; second := 0; microsecond := 0 |}.

(** A display that reads [r], never fails, and has not been written yet. *)
Definition quiet_display (r : Reading) : World :=
  {| reading := r; fault := fun _ _ => None; calls := [] |}.

(** A display like [quiet_display], whose write number [n] (from 0) raises. *)
Definition flaky_display (r : Reading) (n : nat) (e : Py.exn) : World :=
  {| reading := r;
     fault := fun attempts _ => if Nat.eqb attempts n then Some e else None;
     calls := [] |}.

(** The configured lookup-table calibration in the exact model and with
    doubles. *)
Definition exact_lut (q : Q) : Py.result Z :=
  BrightnessController.calibrate_brightness (ML := sample_math) CONFIG_display_calibration q.

Definition binary64_lut (q : Q) : Py.result Z :=
  Binary64.calibrate_brightness CONFIG_display_calibration (Binary64.literal q).

(** ** JSON bodies and the handlers of the routes *)

(** A decoded JSON value; numbers are finite, as everywhere in the exact
    model. *)
#[warnings="-register-all"] Inductive Json : Type :=
| JNull
| JBool (b : bool)
| JInt (n : Z)
| JFloat (q : Q)
| JString (s : string)
| JArray (items : list Json)
| JObject (fields : gmap string Json).

(** The truth value Python gives a decoded JSON value. *)
Definition truthy (v : Json) : bool :=
  match v with
  | JNull => false
  | JBool b => b
  | JInt n => negb (n =? 0)
  | JFloat q => negb (Qeq_bool q 0)
  | JString s => negb (String.eqb s "")
  | JArray items => match items with [] => false | _ :: _ => true end
  | JObject fields => negb (Nat.eqb (size fields) 0)
  end.

(** [isinstance(v, (int, float))] with the number it holds: [bool] is a
    subclass of [int], [True] is 1 and [False] is 0. *)
Definition as_number (v : Json) : option Q :=
  match v with
  | JBool b => Some (if b then 1 else 0)%Q
  | JInt n => Some (inject_Z n)
  | JFloat q => Some q
  | _ => None
  end.

(** The methods of [str] the handler calls: [float(s)] ([None] stands for
    its [ValueError]) and [s.lower()].  They stay abstract. *)
Class StrLib : Type := {
  float_of_string : string -> option Q;
  lower : string -> string
}.

(** What the handler's [except Exception] clause can catch. *)
Inductive RouteError : Type :=
| ControllerError (e : Py.exn)
| TypeError
| AttributeError.

(** The handler's answers: 200 with the body's [brightness_set] and
    [previous_brightness], 400 with its [error], 500. *)
Inductive Response : Type :=
| Success (brightness_set previous_brightness : Z)
| BadRequest (error : string)
| ServerError (e : RouteError).

Definition status (r : Response) : Z :=
  match r with
  | Success _ _ => 200
  | BadRequest _ => 400
  | ServerError _ => 500
  end.

(** The state of [brightness_value] when the [if]/[elif] chain is left. *)
Inductive Computed : Type :=
| Value (v : Z)
| NoValue
| Rejected (error : string)
| Crashed (e : RouteError).


Module Handlers.

Section WithLibraries.

Context `{ML : MathLib} `{SL : StrLib}.

(** The branch [elif 'lux' in data] for a numeric reading. *)
Definition lux_brightness (lux : Q) : Z :=
  Z.min 100 (Z.max 10 (Py.int (lux / 50 + 20)%Q)).

Definition of_calibration (r : Py.result Z) : Computed :=
  match r with
  | Return v => Value v
  | Raise e => Crashed (ControllerError e)
  end.

(** The chain [if 'brightness' in data: ... elif 'level' in data: ... elif
    'time_based' in data and data['time_based']: ... elif 'lux' in data]. *)
Definition compute_value (cfg : Config) (now : dt_time) (data : gmap string Json) : Computed :=
  match data !! "brightness" with
  | Some brightness =>
      match brightness with
      | JString s =>
          match float_of_string s with
          | None => Rejected "Invalid brightness value"
          | Some q => of_calibration (Routes.brightness_value (display_calibration cfg) q)
          end
      | _ =>
          match as_number brightness with
          | Some q => of_calibration (Routes.brightness_value (display_calibration cfg) q)
          | None => NoValue
          end
      end
  | None =>
      match data !! "level" with
      | Some level =>
          match level with
          | JString s => Value (BrightnessController.get_brightness_for_level cfg (lower s))
          | _ => Crashed AttributeError
          end
      | None =>
          if match data !! "time_based" with Some flag => truthy flag | None => false end then
            of_calibration (BrightnessController.get_time_based_brightness cfg now)
          else
            match data !! "lux" with
            | Some lux =>
                match as_number lux with
                | Some q => Value (lux_brightness q)
                | None => Crashed TypeError
                end
            | None => NoValue
            end
      end
  end.

(** The route [POST /brightness]; [body] is what [request.get_json()]
    returned, [None] or a JSON object. *)
Definition post_brightness (cfg : Config) (now : dt_time) (body : option (gmap string Json))
    (m : Machine) : Response * Machine :=
  match body with
  | None => (BadRequest "No JSON data provided", m)
  | Some data =>
      if Nat.eqb (size data) 0 then (BadRequest "No JSON data provided", m)
      else
        let data := match data !! "" with
                    | Some (JObject inner) => inner
                    | _ => data
                    end in
        match compute_value cfg now data with
        | Rejected error => (BadRequest error, m)
        | Crashed e => (ServerError e, m)
        | NoValue => (BadRequest "Invalid brightness data", m)
        | Value brightness_value =>
            let smooth := match data !! "smooth" with
                          | Some flag => truthy flag
                          | None => true
                          end in
            match BrightnessController.set_brightness cfg brightness_value smooth m with
            | (Return _, m') => (Success brightness_value (current_brightness m'), m')
            | (Raise e, m') => (ServerError (ControllerError e), m')
            end
        end
  end.

End WithLibraries.


End Handlers.

(** ** The tray application *)

Module Tray.

(** [set_brightness_manual(self, value)]: the handler logs the exception
    and returns. *)
Definition set_brightness_manual (cfg : Config) (value : Z) : Effect unit :=
  try_except (BrightnessController.set_brightness cfg value true) (fun _ => mret tt).

(** What a call of [winreg] raises. *)
Inductive WinError : Type :=
| FileNotFoundError
| PermissionError
| OtherOSError.

(** The registry as the tray sees it: what [OpenKey] on the [Run] key
    raises, if it does, with and without write access; what [DeleteValue]
    and [SetValueEx] raise on the opened key, if they do; the values of the
    key by name. *)
Record Registry : Type := {
  open_error : bool -> option WinError;
  write_error : option WinError;
  run_values : gmap string string
}.

Definition app_name : string := "BrightnessSync".

(** [f'"{exe_path}"']. *)
Definition quoted (exe_path : string) : string :=
  String (ascii_of_nat 34) (exe_path ++ String (ascii_of_nat 34) "")%string.

Definition with_values (reg : Registry) (values : gmap string string) : Registry :=
  {| open_error := open_error reg; write_error := write_error reg; run_values := values |}.

(** [toggle_autostart(self)]: [Some false] after disabling, [Some true]
    after enabling, [None] when anything but the missing value went wrong. *)
Definition toggle_autostart (exe_path : string) (reg : Registry) : option bool * Registry :=
  match open_error reg true with
  | Some _ => (None, reg)
  | None =>
      match run_values reg !! app_name with
      | Some _ =>
          match write_error reg with
          | Some _ => (None, reg)
          | None => (Some false, with_values reg (delete app_name (run_values reg)))
          end
      | None =>
          match write_error reg with
          | Some _ => (None, reg)
          | None => (Some true, with_values reg (<[app_name := quoted exe_path]> (run_values reg)))
          end
      end
  end.

(** [is_autostart_enabled(self)]. *)
Definition is_autostart_enabled (reg : Registry) : bool :=
  match open_error reg false with
  | Some _ => false
  | None =>
      match run_values reg !! app_name with
      | Some _ => true
      | None => false
      end
  end.

End Tray.

(** ** The plan of a brightness change *)

(** The writes [set_brightness] sets out to make, in order: none when a
    smooth change reads the target from the display, the intermediate steps
    and the target for a smooth change, the target alone otherwise. *)
Definition planned_writes (cfg : Config) (current target : Z) (smooth : bool) : list Z :=
  let target := Z.max 1 (Z.min 100 target) in
  if smooth && smooth_transition cfg then
    if current =? target then []
    else
      let step_size := (inject_Z (target - current) / inject_Z (transition_steps cfg))%Q in
      map (step_value current step_size) (Py.range (transition_steps cfg)) ++ [target]
  else [target].

(** The log of attempting the writes [vs] in order on a display with the
    faults [f], [n] writes having been attempted before: it stops at the
    first write that raises. *)
Fixpoint attempt (f : nat -> Z -> option Py.exn) (n : nat) (vs : list Z)
    : list SetCall * option Py.exn :=
  match vs with
  | [] => ([], None)
  | v :: rest =>
      match f n v with
      | Some e => ([SetRaised v e], Some e)
      | None => let '(log, err) := attempt f (S n) rest in (SetOk v :: log, err)
      end
  end.

(** The value of a logged call. *)
Definition written (c : SetCall) : Z :=
  match c with
  | SetOk v => v
  | SetRaised v _ => v
  end.

(** ASCII lower case. *)
Fixpoint ascii_lower (s : string) : string :=
  match s with
  | EmptyString => EmptyString
  | String a rest =>
      let n := nat_of_ascii a in
      String (if (Nat.leb 65 n && Nat.leb n 90)%bool then ascii_of_nat (n + 32) else a)
             (ascii_lower rest)
  end.

(** A sample string library: [float] of a single decimal digit, ASCII lower
    case. *)
Definition sample_strings : StrLib := {|
  float_of_string := fun s =>
    match s with
    | String a EmptyString => option_map inject_Z (digit a)
    | _ => None
    end;
  lower := ascii_lower
|}.



(** Sample request bodies. *)
Definition half_body : gmap string Json := {[ "brightness" := JFloat 0.5 ]}.

Definition half_and_lux_body : gmap string Json :=
  <["lux" := JInt 3000]> half_body.

Definition null_and_level_body : gmap string Json :=
  <["level" := JString "dark"]> {[ "brightness" := JNull ]}.

Definition shortcuts_body : gmap string Json := {[ "" := JObject half_body ]}.

(** A controller that holds 20 on a display that reads 20 and accepts every
    write. *)
Definition quiet_machine : Machine :=
  {| os := quiet_display (ReadInt 20); current_brightness := 20 |}.

(** A registry without failures that holds another program's entry. *)
Definition plain_registry : Tray.Registry := {|
  Tray.open_error := fun _ => None;
  Tray.write_error := None;
  Tray.run_values := {[ "Updater" := "updater.exe" ]}
|}.

(** The same registry with a stale entry under the application's name. *)
Definition stale_registry : Tray.Registry :=
  Tray.with_values plain_registry
    (<[Tray.app_name := "old.exe"]> (Tray.run_values plain_registry)).

(** * Properties *)

(** ** Facts about the builtins *)

Section Builtins.

Local Open Scope Q_scope.

Lemma Qlt_bool_true (a b : Q) : Py.Qlt_bool a b = true <-> a < b.
Proof.
  unfold Py.Qlt_bool. rewrite negb_true_iff.
  split; intros H.
  - apply Qnot_le_lt. intros Hle. apply Qle_bool_iff in Hle. congruence.
  - destruct (Qle_bool b a) eqn:E; [|reflexivity].
    apply Qle_bool_iff in E. exfalso. apply (Qlt_not_le _ _ H E).
Qed.

Lemma Qlt_bool_false (a b : Q) : Py.Qlt_bool a b = false <-> b <= a.
Proof.
  unfold Py.Qlt_bool. rewrite negb_false_iff. apply Qle_bool_iff.
Qed.

Lemma Qle_bool_false (a b : Q) : Qle_bool a b = false <-> b < a.
Proof.
  rewrite <- Qlt_bool_true. unfold Py.Qlt_bool.
  destruct (Qle_bool a b); simpl; intuition congruence.
Qed.

Lemma max_cases (a b : Q) :
  (a < b /\ Py.max a b = b) \/ (b <= a /\ Py.max a b = a).
Proof.
  unfold Py.max. destruct (Py.Qlt_bool a b) eqn:E.
  - left. split; [now apply Qlt_bool_true | reflexivity].
  - right. split; [now apply Qlt_bool_false | reflexivity].
Qed.

Lemma min_cases (a b : Q) :
  (b < a /\ Py.min a b = b) \/ (a <= b /\ Py.min a b = a).
Proof.
  unfold Py.min. destruct (Py.Qlt_bool b a) eqn:E.
  - left. split; [now apply Qlt_bool_true | reflexivity].
  - right. split; [now apply Qlt_bool_false | reflexivity].
Qed.

(** [max(lo, min(hi, v))] lies between [lo] and [hi] when [lo <= hi]. *)
Lemma clamp_bounds (lo hi v : Q) :
  lo <= hi -> lo <= Py.max lo (Py.min hi v) <= hi.
Proof.
  intros Hlh.
  destruct (max_cases lo (Py.min hi v)) as [[H1 ->]|[H1 ->]];
    destruct (min_cases hi v) as [[H2 E]|[H2 E]]; rewrite ?E in *; lra.
Qed.

(** The clamp is monotone, whatever the bounds. *)
Lemma clamp_mono (lo hi v w : Q) :
  v <= w -> Py.max lo (Py.min hi v) <= Py.max lo (Py.min hi w).
Proof.
  intros Hvw.
  destruct (max_cases lo (Py.min hi v)) as [[H1 ->]|[H1 ->]];
    destruct (max_cases lo (Py.min hi w)) as [[H2 ->]|[H2 ->]];
    destruct (min_cases hi v) as [[H3 E3]|[H3 E3]];
    destruct (min_cases hi w) as [[H4 E4]|[H4 E4]];
    rewrite ?E3, ?E4 in *; lra.
Qed.


Lemma int_mono (a b : Q) : a <= b -> (Py.int a <= Py.int b)%Z.
Proof.
  intros Hab. unfold Py.int.
  destruct (Qle_bool 0 a) eqn:Ea; destruct (Qle_bool 0 b) eqn:Eb.
  - now apply Qfloor_resp_le.
  - apply Qle_bool_iff in Ea. apply Qle_bool_false in Eb. lra.
  - apply Qle_bool_false in Ea. apply Qle_bool_iff in Eb.
    assert (Hc : (Qceiling a <= 0)%Z).
    { change 0%Z with (Qceiling 0). apply Qceiling_resp_le. lra. }
    assert (Hf : (0 <= Qfloor b)%Z).
    { change 0%Z with (Qfloor 0). now apply Qfloor_resp_le. }
    lia.
  - now apply Qceiling_resp_le.
Qed.


Lemma int_inject_Z (z : Z) : Py.int (inject_Z z) = z.
Proof.
  unfold Py.int. destruct (Qle_bool 0 (inject_Z z));
    [apply Qfloor_Z | apply Qceiling_Z].
Qed.

End Builtins.

(** [settle b] decides the comparison [b] of the source from the linear
    facts at hand and rewrites it to its value. *)
Ltac settle b :=
  first
    [ replace b with true
        by (symmetry; first [apply Qle_bool_iff | apply Qlt_bool_true]; lra)
    | replace b with false
        by (symmetry; first [apply Qle_bool_false | apply Qlt_bool_false]; lra) ].

(** ** The lookup table *)

Section LookupTable.

Import BrightnessController.
Context `{ML : MathLib}.
Local Open Scope list_scope.
Local Open Scope Q_scope.

Lemma lut_segment_at (pre : list (Q * Q)) (p1 p2 : Q * Q) (tl : list (Q * Q)) (c : Q) :
  lut_segment (pre ++ p1 :: p2 :: tl) c (length pre) =
  Return (lut_scan [p1; p2] c).
Proof.
  unfold lut_segment, Py.index.
  rewrite (list_lookup_middle pre (p2 :: tl) p1 (length pre)) by reflexivity.
  replace (length pre + 1)%nat with (length (pre ++ [p1])) by (rewrite length_app; reflexivity).
  replace (pre ++ p1 :: p2 :: tl) with ((pre ++ [p1]) ++ p2 :: tl)
    by (rewrite <- app_assoc; reflexivity).
  rewrite (list_lookup_middle (pre ++ [p1]) tl p2 _) by reflexivity.
  destruct p1 as [x1 y1], p2 as [x2 y2]. simpl.
  destruct (Qle_bool x1 c && Qle_bool c x2); reflexivity.
Qed.

Lemma lut_for_scan (suf pre : list (Q * Q)) (c : Q) :
  lut_for (pre ++ suf) c (seq (length pre) (length suf - 1)) = Return (lut_scan suf c).
Proof.
  revert pre. induction suf as [|p1 tl IH]; intros pre; [reflexivity|].
  destruct tl as [|p2 tl]; [destruct p1; reflexivity|].
  replace (length (p1 :: p2 :: tl) - 1)%nat with (S (length (p2 :: tl) - 1))
    by (cbn [length]; lia).
  cbn [seq lut_for]. rewrite lut_segment_at.
  destruct p1 as [x1 y1], p2 as [x2 y2]. cbn [lut_scan].
  destruct (Qle_bool x1 c && Qle_bool c x2); [reflexivity|].
  cbn [mbind result_bind Py.bind].
  specialize (IH (pre ++ [(x1, y1)])).
  rewrite <- app_assoc, length_app in IH. cbn [app length] in IH.
  replace (length pre + 1)%nat with (S (length pre)) in IH by lia.
  exact IH.
Qed.

(** The loop and its [else] clause, on a table with a first breakpoint. *)
Lemma lut_brightness_scan (x0 y0 : Q) (rest : list (Q * Q)) (c : Q) :
  lut_brightness ((x0, y0) :: rest) c =
  Return match lut_scan ((x0, y0) :: rest) c with
         | Some v => v
         | None => if Qle_bool c x0 then y0 else snd (List.last rest (x0, y0))
         end.
Proof.
  unfold lut_brightness.
  pose proof (lut_for_scan ((x0, y0) :: rest) [] c) as Hfor.
  change ([] ++ (x0, y0) :: rest)%list with ((x0, y0) :: rest) in Hfor.
  change (length (@nil (Q * Q))) with 0%nat in Hfor.
  rewrite Hfor. clear Hfor.
  cbn [mbind result_bind Py.bind].
  destruct (lut_scan ((x0, y0) :: rest) c); [reflexivity|].
  unfold lut_else, Py.index, Py.index_last. cbn [lookup list_lookup fst snd mbind result_bind Py.bind].
  destruct (Qle_bool c x0); [reflexivity|].
  rewrite last_cons.
  destruct (last rest) as [p|] eqn:E.
  - cbn. f_equal. f_equal.
    apply last_Some in E as [l' ->]. now rewrite List.last_last.
  - apply last_None in E as ->. reflexivity.
Qed.

(** *** Interpolation on one segment *)

Lemma ratio_bounds (x1 x2 c : Q) :
  x1 < x2 -> x1 <= c <= x2 -> 0 <= (c - x1) / (x2 - x1) <= 1.
Proof.
  intros Hlt [Hl Hu]. split.
  - apply Qle_shift_div_l; lra.
  - apply Qle_shift_div_r; lra.
Qed.

Lemma ratio_mono (x1 x2 a b : Q) :
  x1 < x2 -> a <= b -> (a - x1) / (x2 - x1) <= (b - x1) / (x2 - x1).
Proof.
  intros Hlt Hab. unfold Qdiv. apply Qmult_le_compat_r; [lra|].
  apply Qlt_le_weak, Qinv_lt_0_compat. lra.
Qed.

Lemma interpolate_bounds (x1 y1 x2 y2 c : Q) :
  x1 < x2 -> y1 <= y2 -> x1 <= c <= x2 ->
  y1 <= interpolate x1 y1 x2 y2 c <= y2.
Proof.
  intros Hx Hy Hc. unfold interpolate.
  pose proof (ratio_bounds x1 x2 c Hx Hc) as Hr.
  set (t := (c - x1) / (x2 - x1)) in *. clearbody t. nra.
Qed.

Lemma interpolate_mono (x1 y1 x2 y2 a b : Q) :
  x1 < x2 -> y1 <= y2 -> a <= b ->
  interpolate x1 y1 x2 y2 a <= interpolate x1 y1 x2 y2 b.
Proof.
  intros Hx Hy Hab. unfold interpolate.
  pose proof (ratio_mono x1 x2 a b Hx Hab) as Hr.
  set (ta := (a - x1) / (x2 - x1)) in *. set (tb := (b - x1) / (x2 - x1)) in *.
  clearbody ta tb. nra.
Qed.



(** *** Sorted tables *)

Lemma last_cons_default {A : Type} (a d : A) (l : list A) :
  List.last (a :: l) d = List.last l a.
Proof.
  revert a d. induction l as [|b l IH]; intros a d; [reflexivity|].
  change (List.last (a :: b :: l) d) with (List.last (b :: l) d).
  rewrite (IH b d), (IH b a). reflexivity.
Qed.


Lemma lut_scan_step (x1 y1 x2 y2 : Q) (tl : list (Q * Q)) (c : Q) :
  lut_scan ((x1, y1) :: (x2, y2) :: tl) c =
  if Qle_bool x1 c && Qle_bool c x2 then
    Some (y1 + (if negb (Qeq_bool x2 x1) then (c - x1) / (x2 - x1) else 0) * (y2 - y1))
  else lut_scan ((x2, y2) :: tl) c.
Proof. reflexivity. Qed.

(** Before the first breakpoint of a sorted table no segment brackets. *)
Lemma lut_scan_before (x0 y0 : Q) (rest : list (Q * Q)) (c : Q) :
  increasing (x0 :: map fst rest) -> c < x0 -> lut_scan ((x0, y0) :: rest) c = None.
Proof.
  revert x0 y0. induction rest as [|[x1 y1] rest IH]; intros x0 y0 Hinc Hc; [reflexivity|].
  cbn [map fst] in Hinc. destruct Hinc as [H01 Hinc]. rewrite lut_scan_step.
  settle (Qle_bool x0 c).
  cbn [andb]. apply IH; [exact Hinc | lra].
Qed.

(** On a sorted table the lookup is the piecewise-linear mapping. *)
Lemma lut_value_piecewise (x0 y0 : Q) (rest : list (Q * Q)) (c : Q) :
  increasing (x0 :: map fst rest) ->
  lut_value x0 y0 rest c = piecewise x0 y0 rest c.
Proof.
  revert x0 y0. induction rest as [|[x1 y1] rest IH]; intros x0 y0 Hinc.
  - unfold lut_value. cbn. destruct (Qle_bool c x0); reflexivity.
  - cbn [map fst] in Hinc. destruct Hinc as [H01 Hinc].
    unfold lut_value. rewrite lut_scan_step. cbn [piecewise].
    destruct (Py.Qlt_bool c x0) eqn:Elt.
    + apply Qlt_bool_true in Elt.
      settle (Qle_bool x0 c).
      cbn [andb]. rewrite lut_scan_before by (trivial; lra).
      settle (Qle_bool c x0).
      reflexivity.
    + apply Qlt_bool_false in Elt.
      settle (Qle_bool x0 c).
      cbn [andb]. destruct (Qle_bool c x1) eqn:Ele.
      * replace (Qeq_bool x1 x0) with false; [reflexivity|].
        symmetry. apply not_true_is_false. intros E. apply Qeq_bool_iff in E. lra.
      * apply Qle_bool_false in Ele.
        specialize (IH x1 y1 Hinc). unfold lut_value in IH. rewrite <- IH.
        destruct (lut_scan ((x1, y1) :: rest) c); [reflexivity|].
        settle (Qle_bool c x0).
        settle (Qle_bool c x1).
        now rewrite last_cons_default.
Qed.

Lemma lut_brightness_piecewise (x0 y0 : Q) (rest : list (Q * Q)) (c : Q) :
  increasing (x0 :: map fst rest) ->
  lut_brightness ((x0, y0) :: rest) c = Return (piecewise x0 y0 rest c).
Proof.
  intros Hinc. rewrite lut_brightness_scan. f_equal.
  now apply lut_value_piecewise.
Qed.

(** *** The piecewise-linear mapping *)

Lemma piecewise_bounds (x0 y0 : Q) (rest : list (Q * Q)) (c : Q) :
  increasing (x0 :: map fst rest) -> nondecreasing (y0 :: map snd rest) ->
  y0 <= piecewise x0 y0 rest c <= snd (List.last rest (x0, y0)).
Proof.
  revert x0 y0. induction rest as [|[x1 y1] rest IH]; intros x0 y0 Hinc Hnd.
  - cbn. lra.
  - cbn [map fst snd] in Hinc, Hnd.
    destruct Hinc as [H01 Hinc]. destruct Hnd as [Hy01 Hnd].
    assert (Hlast : y1 <= snd (List.last ((x1, y1) :: rest) (x0, y0))).
    { rewrite last_cons_default.
      specialize (IH x1 y1 Hinc Hnd). lra. }
    cbn [piecewise].
    destruct (Py.Qlt_bool c x0) eqn:Elt; [lra|]. apply Qlt_bool_false in Elt.
    destruct (Qle_bool c x1) eqn:Ele.
    + apply Qle_bool_iff in Ele.
      pose proof (interpolate_bounds x0 y0 x1 y1 c H01 Hy01 (conj Elt Ele)). lra.
    + specialize (IH x1 y1 Hinc Hnd).
      rewrite last_cons_default. lra.
Qed.

Lemma piecewise_mono (x0 y0 : Q) (rest : list (Q * Q)) (a b : Q) :
  increasing (x0 :: map fst rest) -> nondecreasing (y0 :: map snd rest) ->
  a <= b -> piecewise x0 y0 rest a <= piecewise x0 y0 rest b.
Proof.
  revert x0 y0. induction rest as [|[x1 y1] rest IH]; intros x0 y0 Hinc Hnd Hab.
  - cbn. lra.
  - pose proof (piecewise_bounds x0 y0 ((x1, y1) :: rest) b Hinc Hnd) as [Hlow _].
    cbn [map fst snd] in Hinc, Hnd.
    destruct Hinc as [H01 Hinc]. destruct Hnd as [Hy01 Hnd]. cbn [piecewise] in *.
    destruct (Py.Qlt_bool a x0) eqn:Ea0; [exact Hlow|]. apply Qlt_bool_false in Ea0.
    settle (Py.Qlt_bool b x0).
    destruct (Qle_bool a x1) eqn:Ea1.
    + apply Qle_bool_iff in Ea1. destruct (Qle_bool b x1) eqn:Eb1.
      * now apply interpolate_mono.
      * pose proof (interpolate_bounds x0 y0 x1 y1 a H01 Hy01 (conj Ea0 Ea1)).
        pose proof (piecewise_bounds x1 y1 rest b Hinc Hnd). lra.
    + apply Qle_bool_false in Ea1.
      settle (Qle_bool b x1).
      now apply IH.
Qed.

(** An empty table makes the lookup raise. *)
Lemma lut_brightness_empty (c : Q) : lut_brightness [] c = Raise Py.IndexError.
Proof. reflexivity. Qed.

End LookupTable.

(** ** The tail of the calibration: percentage, floor and ceiling *)

Section Percentage.

Import BrightnessController.
Local Open Scope Q_scope.

Lemma to_percentage_range (cal : DisplayCalibration) (v : Q) :
  (min_brightness cal <= max_brightness cal)%Z ->
  (min_brightness cal <= to_percentage cal v <= max_brightness cal)%Z.
Proof.
  intros Hmm. unfold to_percentage.
  assert (Hq : inject_Z (min_brightness cal) <= inject_Z (max_brightness cal))
    by (rewrite <- Zle_Qle; exact Hmm).
  destruct (clamp_bounds _ _ (v * 100) Hq) as [Hlo Hhi].
  apply int_mono in Hlo, Hhi. rewrite int_inject_Z in Hlo, Hhi. lia.
Qed.

Lemma to_percentage_mono (cal : DisplayCalibration) (v w : Q) :
  v <= w -> (to_percentage cal v <= to_percentage cal w)%Z.
Proof.
  intros Hvw. unfold to_percentage. apply int_mono, clamp_mono. lra.
Qed.






Lemma unit_clamp_mono (x y : Q) :
  x <= y -> Py.max 0.0 (Py.min 1.0 x) <= Py.max 0.0 (Py.min 1.0 y).
Proof. apply clamp_mono. Qed.

End Percentage.

(** ** The segments of the piecewise-linear mapping *)

Section Segments.

Local Open Scope list_scope.
Local Open Scope Q_scope.









End Segments.

(** ** Calibration in lookup-table mode *)

Section LutCalibration.

Import BrightnessController.
Context `{ML : MathLib}.
Local Open Scope list_scope.
Local Open Scope Q_scope.

(** In lookup-table mode, on a sorted table, the calibration is the
    piecewise-linear mapping of the clamped input, turned into a percentage. *)
Lemma calibrate_lut_piecewise (cal : DisplayCalibration) (x x0 y0 : Q) (rest : list (Q * Q)) :
  brightness_curve cal = "lut"%string ->
  calibration_lut cal = (x0, y0) :: rest ->
  increasing (map fst (calibration_lut cal)) ->
  calibrate_brightness cal x =
  Return (to_percentage cal (piecewise x0 y0 rest (Py.max 0.0 (Py.min 1.0 x)))).
Proof.
  intros Hcurve Hlut Hinc. unfold calibrate_brightness.
  rewrite Hcurve, Hlut. rewrite Hlut in Hinc. cbn [String.eqb Ascii.eqb Bool.eqb].
  cbn [map fst] in Hinc. rewrite lut_brightness_piecewise by exact Hinc.
  reflexivity.
Qed.

(** Monotonicity for every table with increasing sources and non-decreasing
    targets. *)
Lemma calibrate_lut_monotone (cal : DisplayCalibration) (x y : Q) :
  brightness_curve cal = "lut"%string ->
  calibration_lut cal <> [] ->
  increasing (map fst (calibration_lut cal)) ->
  nondecreasing (map snd (calibration_lut cal)) ->
  x <= y ->
  exists rx ry : Z,
    calibrate_brightness cal x = Return rx /\
    calibrate_brightness cal y = Return ry /\
    (rx <= ry)%Z.
Proof.
  intros Hcurve Hne Hinc Hnd Hxy.
  destruct (calibration_lut cal) as [|[x0 y0] rest] eqn:Hlut; [congruence|].
  rewrite <- Hlut in Hinc.
  rewrite (calibrate_lut_piecewise cal x x0 y0 rest Hcurve Hlut Hinc).
  rewrite (calibrate_lut_piecewise cal y x0 y0 rest Hcurve Hlut Hinc).
  eexists _, _. split; [reflexivity|]. split; [reflexivity|].
  rewrite Hlut in Hinc. cbn [map fst snd] in Hinc, Hnd.
  apply to_percentage_mono, piecewise_mono; [exact Hinc | exact Hnd |].
  now apply unit_clamp_mono.
Qed.

End LutCalibration.

Section Claims.

Import BrightnessController.
Local Open Scope list_scope.
Local Open Scope Q_scope.



(** The calibration returns within the configured bounds whenever it
    returns, for every configuration with [min_brightness <= max_brightness]. *)
Lemma calibrate_brightness_bounds `{ML : MathLib} (cal : DisplayCalibration) (x : Q) (r : Z) :
  (min_brightness cal <= max_brightness cal)%Z ->
  calibrate_brightness cal x = Return r ->
  (min_brightness cal <= r <= max_brightness cal)%Z.
Proof.
  intros Hmm. unfold calibrate_brightness.
  match goal with |- context [mbind _ ?m] => destruct m as [lb|e] end;
    cbn [mbind result_bind Py.bind]; [|discriminate].
  intros [= <-]. now apply to_percentage_range.
Qed.

(** With the configured constants every curve returns. *)
Lemma calibrate_brightness_returns `{ML : MathLib} (curve : string) (x : Q) :
  exists r : Z,
    calibrate_brightness (with_curve CONFIG_display_calibration curve) x = Return r.
Proof.
  unfold calibrate_brightness, with_curve. cbn [brightness_curve].
  destruct (String.eqb curve "lut").
  { cbn [calibration_lut CONFIG_display_calibration].
    rewrite lut_brightness_scan. eexists. reflexivity. }
  destruct (String.eqb curve "perceptual"); [eexists; reflexivity|].
  destruct (String.eqb curve "logarithmic"); [|eexists; reflexivity].
  unfold logarithmic_brightness.
  destruct (Py.Qlt_bool 0 (Py.max 0.0 (Py.min 1.0 x))); eexists; reflexivity.
Qed.

(** C2. For every input [x] in [0,1] and every curve mode, the calibration
    with the configured constants returns a value in the configured range
    [min_brightness, max_brightness], which is [5, 95]. *)
Theorem calibrate_brightness_in_range `{ML : MathLib} (curve : string) (x : Q) :
  0 <= x <= 1 ->
  exists r : Z,
    calibrate_brightness (with_curve CONFIG_display_calibration curve) x = Return r /\
    (min_brightness CONFIG_display_calibration <= r
       <= max_brightness CONFIG_display_calibration)%Z /\
    (5 <= r <= 95)%Z.
Proof.
  intros _. destruct (calibrate_brightness_returns curve x) as [r Hr].
  exists r. split; [exact Hr|].
  apply calibrate_brightness_bounds in Hr; [|cbn; lia].
  split; exact Hr.
Qed.

(** C2 at the perceptual curve and the input 0.5. *)
Lemma calibrate_brightness_in_range_witness :
  0 <= 0.5 <= 1 /\
  exists r : Z,
    calibrate_brightness (ML := sample_math)
      (with_curve CONFIG_display_calibration "perceptual") 0.5 = Return r /\
    (min_brightness CONFIG_display_calibration <= r
       <= max_brightness CONFIG_display_calibration)%Z /\
    (5 <= r <= 95)%Z.
Proof.
  assert (H : 0 <= 0.5 <= 1) by (split; vm_compute; discriminate).
  split; [exact H|].
  exact (calibrate_brightness_in_range (ML := sample_math) "perceptual" 0.5 H).
Defined.





End Claims.

(** ** Levels and time windows *)

Section LevelClaims.

Import BrightnessController.
Local Open Scope list_scope.

(** C7. For every level name present in the configured brightness ranges,
    [get_brightness_for_level] returns the integer midpoint
    [(min + max) // 2] of that level's range; for every name that is not
    present it returns 50. *)
Theorem get_brightness_for_level_midpoint (cfg : Config) (name : string) :
  (forall range : LevelRange,
      brightness_ranges cfg !! name = Some range ->
      get_brightness_for_level cfg name = (range_min range + range_max range) / 2) /\
  (brightness_ranges cfg !! name = None ->
   get_brightness_for_level cfg name = 50).
Proof.
  unfold get_brightness_for_level. split.
  - intros range ->. reflexivity.
  - intros ->. reflexivity.
Qed.

(** C7 at the configured ranges: "dark" has the midpoint (15 + 30) // 2 = 22,
    and the absent "twilight" gets 50. *)
Lemma get_brightness_for_level_midpoint_witness :
  get_brightness_for_level CONFIG "dark" = 22 /\
  get_brightness_for_level CONFIG "twilight" = 50.
Proof.
  split.
  - exact (proj1 (get_brightness_for_level_midpoint CONFIG "dark")
             {| range_min := 15; range_max := 30 |} eq_refl).
  - exact (proj2 (get_brightness_for_level_midpoint CONFIG "twilight") eq_refl).
Defined.

(** The configured levels, one by one. *)
Lemma CONFIG_levels :
  map (get_brightness_for_level CONFIG)
      ["very_dark"; "dark"; "dim"; "normal"; "bright"; "very_bright"]
  = [10; 22; 40; 60; 80; 95].
Proof. reflexivity. Qed.

(** The loop returns the level of the first window that matches. *)
Lemma time_based_for_first_match (cfg : Config) (now : dt_time)
    (items : list (string * TimeWindow)) :
  Forall well_formed_window items ->
  time_based_for cfg now items =
  Return match List.find (in_window now) items with
         | Some item => get_brightness_for_level cfg (level (snd item))
         | None => get_brightness_for_level cfg "normal"
         end.
Proof.
  induction 1 as [|[period config] items [[s Hs] [e He]] _ IH]; [reflexivity|].
  cbn [time_based_for List.find]. unfold in_window at 1.
  cbn [fst snd] in *. rewrite Hs, He. cbn [mbind result_bind Py.bind].
  unfold window_matches.
  destruct (String.eqb period "night");
    match goal with |- context [if ?b then Return _ else _] => destruct b end;
    first [reflexivity | exact IH].
Qed.

(** C6. [get_time_based_brightness] tests the configured windows in their
    fixed order, the night window as a wrap-around interval
    ([now >= start or now <= end]), and returns the brightness of the level
    of the first window that matches, or of the level "normal" when none
    does.  With the configured windows, 23:00 falls in the night window and
    gives its level's brightness, and 12:00 falls in the day window and
    gives its level's brightness. *)
Theorem get_time_based_brightness_first_match :
  (forall (cfg : Config) (now : dt_time),
      Forall well_formed_window (time_based_brightness cfg) ->
      get_time_based_brightness cfg now =
      Return match List.find (in_window now) (time_based_brightness cfg) with
             | Some item => get_brightness_for_level cfg (level (snd item))
             | None => get_brightness_for_level cfg "normal"
             end) /\
  (forall (now : dt_time) (w : TimeWindow) (start_time end_time : dt_time),
      fromisoformat (start w) = Return start_time ->
      fromisoformat (end_ w) = Return end_time ->
      in_window now ("night", w) = time_le start_time now || time_le now end_time) /\
  (exists w : TimeWindow,
      List.find (in_window (clock 23 0)) (time_based_brightness CONFIG) = Some ("night", w) /\
      get_time_based_brightness CONFIG (clock 23 0) =
      Return (get_brightness_for_level CONFIG (level w))) /\
  (exists w : TimeWindow,
      List.find (in_window (clock 12 0)) (time_based_brightness CONFIG) = Some ("day", w) /\
      get_time_based_brightness CONFIG (clock 12 0) =
      Return (get_brightness_for_level CONFIG (level w))).
Proof.
  split; [|split; [|split]].
  - intros cfg now Hwf. now apply time_based_for_first_match.
  - intros now w s e Hs He. unfold in_window. cbn [fst snd]. now rewrite Hs, He.
  - eexists. split; reflexivity.
  - eexists. split; reflexivity.
Qed.

Lemma CONFIG_windows_well_formed : Forall well_formed_window (time_based_brightness CONFIG).
Proof.
  repeat constructor; eexists; reflexivity.
Defined.

Lemma day_only_windows_well_formed :
  Forall well_formed_window (time_based_brightness day_only_config).
Proof.
  repeat constructor; eexists; reflexivity.
Defined.

(** C6 at 07:30 with the configured windows (morning, level "normal", 60), and
    at 20:00 with the day window alone (no match, level "normal", 60). *)
Lemma get_time_based_brightness_first_match_witness :
  get_time_based_brightness CONFIG (clock 7 30) = Return 60 /\
  get_time_based_brightness day_only_config (clock 20 0) = Return 60.
Proof.
  split.
  - exact (proj1 get_time_based_brightness_first_match CONFIG (clock 7 30)
             CONFIG_windows_well_formed).
  - exact (proj1 get_time_based_brightness_first_match day_only_config (clock 20 0)
             day_only_windows_well_formed).
Defined.

(** The configured schedule at 23:00 and at 12:00. *)
Lemma CONFIG_schedule :
  get_time_based_brightness CONFIG (clock 23 0) = Return 10 /\
  get_time_based_brightness CONFIG (clock 12 0) = Return 80.
Proof. split; reflexivity. Qed.

End LevelClaims.

(** ** The display and the transition *)

Create HintDb propagation.

Section Effects.

Import BrightnessController.
Local Open Scope list_scope.

Lemma with_calls_nil (m : Machine) : with_calls m [] = m.
Proof.
  destruct m as [[r f c] b]. unfold with_calls. cbn. now rewrite app_nil_r.
Qed.



(** *** Runs without failure *)

Lemma bind_run {A B : Type} (body : Effect A) (k : A -> Effect B) (m : Machine) :
  (body ≫= k) m =
  match body m with
  | (Return a, m') => k a m'
  | (Raise e, m') => (Raise e, m')
  end.
Proof. reflexivity. Qed.


Lemma step_value_range (current : Z) (step_size : Q) (i : Z) :
  1 <= step_value current step_size i <= 100.
Proof. unfold step_value. lia. Qed.

(** *** Propagation of failures *)

Lemma propagates_ret {A : Type} (a : A) : propagates (mret a).
Proof.
  intros m r m' [= <- <-]. exists []. split; [now rewrite app_nil_r|].
  intros v e [].
Qed.

Lemma propagates_lift {A : Type} (r0 : Py.result A) : propagates (lift r0).
Proof.
  intros m r m' [= <- <-]. exists []. split; [now rewrite app_nil_r|].
  intros v e [].
Qed.

Lemma propagates_store (v0 : Z) : propagates (store_current_brightness v0).
Proof.
  intros m r m' [= <- <-]. exists []. split; [cbn; now rewrite app_nil_r|].
  intros v e [].
Qed.

Lemma propagates_set (v0 : Z) : propagates (sbc_set_brightness v0).
Proof.
  intros m r m'. unfold sbc_set_brightness.
  destruct (fault (os m) (length (calls (os m))) v0) as [e0|]; intros [= <- <-].
  - exists [SetRaised v0 e0]. split; [reflexivity|].
    intros v e [[= <- <-]|[]]. reflexivity.
  - exists [SetOk v0]. split; [reflexivity|].
    intros v e [H|[]]. discriminate.
Qed.

#[local] Hint Resolve propagates_ret propagates_lift propagates_store propagates_set
  : propagation.

Lemma propagates_bind {A B : Type} (body : Effect A) (k : A -> Effect B) :
  propagates body -> (forall a, propagates (k a)) -> propagates (body ≫= k).
Proof.
  intros Hbody Hk m r m'. unfold mbind, effect_bind.
  destruct (body m) as [[a|e1] m1] eqn:E1.
  - intros E2. destruct (Hbody _ _ _ E1) as (new1 & Hc1 & Hp1).
    destruct (Hk a _ _ _ E2) as (new2 & Hc2 & Hp2).
    exists (new1 ++ new2). split; [now rewrite Hc2, Hc1, app_assoc|].
    intros v e Hin. apply in_app_or in Hin as [Hin|Hin].
    + specialize (Hp1 v e Hin). discriminate.
    + now apply (Hp2 v e).
  - intros [= <- <-]. destruct (Hbody _ _ _ E1) as (new1 & Hc1 & Hp1).
    exists new1. split; [exact Hc1|].
    intros v e Hin. specialize (Hp1 v e Hin). congruence.
Qed.

(** The handler of [set_brightness] logs and re-raises. *)
Lemma propagates_reraise {A : Type} (body : Effect A) :
  propagates body -> propagates (try_except body (fun e => raise e)).
Proof.
  intros Hbody m r m'. unfold try_except, raise.
  destruct (body m) as [[a|e1] m1] eqn:E1; intros [= <- <-]; exact (Hbody _ _ _ E1).
Qed.

Lemma propagates_smooth_for (current : Z) (step_size : Q) (indices : list Z) :
  propagates (smooth_for current step_size indices).
Proof.
  induction indices as [|i rest IH]; cbn [smooth_for]; [auto with propagation|].
  apply propagates_bind; [auto with propagation | intros _; exact IH].
Qed.

#[local] Hint Resolve propagates_smooth_for : propagation.

(** A chain of binds propagates when each link does. *)
Ltac chain := repeat (apply propagates_bind; [auto with propagation | intro]);
              auto with propagation.

Lemma propagates_smooth_brightness_change (cfg : Config) (target : Z) :
  propagates (_smooth_brightness_change cfg target).
Proof.
  assert (Hchain : forall current : Z, propagates
    (step_size ← lift (Py.truediv (inject_Z (target - current))
                                  (inject_Z (transition_steps cfg)));
     _ ← smooth_for current step_size (Py.range (transition_steps cfg));
     _ ← sbc_set_brightness target;
     store_current_brightness target)).
  { intros current. chain. }
  intros m r m'. unfold _smooth_brightness_change.
  destruct (get_current_brightness (os m) =? target).
  - intros [= <- <-]. exists []. split; [now rewrite app_nil_r|]. intros v e [].
  - apply Hchain.
Qed.

Lemma propagates_set_brightness (cfg : Config) (target : Z) (smooth : bool) :
  propagates (set_brightness cfg target smooth).
Proof.
  unfold set_brightness. apply propagates_reraise.
  destruct (smooth && smooth_transition cfg).
  - apply propagates_smooth_brightness_change.
  - chain.
Qed.

End Effects.

Section EffectClaims.

Import BrightnessController.





(** C8. [get_current_brightness] returns the default 50, and raises
    nothing, when the read of the display raises or yields no value ([None]
    or an empty list); and every failure of a write to the display inside
    [set_brightness] is raised to the caller. *)
Theorem os_failures_default_or_reraise :
  (forall w : World,
      (exists e, reading w = ReadRaises e) \/ reading w = ReadNone \/ reading w = ReadList [] ->
      get_current_brightness w = 50) /\
  (forall (cfg : Config) (target : Z) (smooth : bool) (m m' : Machine) (r : Py.result unit),
      set_brightness cfg target smooth m = (r, m') ->
      exists new : list SetCall,
        calls (os m') = calls (os m) ++ new /\
        forall (v : Z) (e : Py.exn), In (SetRaised v e) new -> r = Raise e).
Proof.
  split.
  - intros w [[e H]|[H|H]]; unfold get_current_brightness; now rewrite H.
  - intros cfg target smooth m m' r H.
    exact (propagates_set_brightness cfg target smooth m r m' H).
Qed.

(** C8 at a display whose read raises, and at a display whose third write
    raises during the transition from 20 to 80. *)
Lemma os_failures_default_or_reraise_witness :
  get_current_brightness (quiet_display (ReadRaises (Py.OSError 5))) = 50 /\
  exists (new : list SetCall) (m' : Machine),
    set_brightness CONFIG 80 true
      {| os := flaky_display (ReadList [20]) 2 (Py.OSError 5); current_brightness := 20 |}
      = (Raise (Py.OSError 5), m') /\
    calls (os m') = new /\
    In (SetRaised 38 (Py.OSError 5)) new.
Proof.
  split.
  - exact (proj1 os_failures_default_or_reraise
             (quiet_display (ReadRaises (Py.OSError 5)))
             (or_introl (ex_intro _ (Py.OSError 5) eq_refl))).
  - set (m := {| os := flaky_display (ReadList [20]) 2 (Py.OSError 5);
                 current_brightness := 20 |}).
    destruct (set_brightness CONFIG 80 true m) as [r m'] eqn:Hrun.
    destruct (proj2 os_failures_default_or_reraise CONFIG 80 true m m' r Hrun)
      as (new & Hcalls & Hraise).
    assert (Hlog : calls (os m') = [SetOk 26; SetOk 32; SetRaised 38 (Py.OSError 5)]).
    { vm_compute in Hrun. injection Hrun as _ <-. reflexivity. }
    assert (Hin : In (SetRaised 38 (Py.OSError 5)) new).
    { cbn in Hcalls. rewrite <- Hcalls, Hlog. right. right. left. reflexivity. }
    exists new, m'. rewrite (Hraise 38 (Py.OSError 5) Hin).
    split; [reflexivity|]. split; [exact Hcalls | exact Hin].
Defined.

(** C9. A smooth [set_brightness] that reads the clamped target from the
    display returns at once: no write is issued and the stored
    [current_brightness] is left as it was, so it may differ from the target
    afterwards; every other call that returns leaves [current_brightness]
    equal to the clamped target. *)
Theorem set_brightness_stored_value :
  (forall (cfg : Config) (target : Z) (m : Machine),
      smooth_transition cfg = true ->
      get_current_brightness (os m) = Z.max 1 (Z.min 100 target) ->
      set_brightness cfg target true m = (Return tt, m)) /\
  (exists (target : Z) (m : Machine),
      let m' := snd (set_brightness CONFIG target true m) in
      calls (os m') = calls (os m) /\
      current_brightness m' = current_brightness m /\
      current_brightness m' <> Z.max 1 (Z.min 100 target)) /\
  (forall (cfg : Config) (target : Z) (smooth : bool) (m m' : Machine),
      set_brightness cfg target smooth m = (Return tt, m') ->
      ~ (smooth = true /\ smooth_transition cfg = true /\
         get_current_brightness (os m) = Z.max 1 (Z.min 100 target)) ->
      current_brightness m' = Z.max 1 (Z.min 100 target)).
Proof.
  split; [|split].
  - intros cfg target m Hs Hread. unfold set_brightness, try_except.
    rewrite Hs. cbn [andb]. unfold _smooth_brightness_change.
    rewrite Hread, Z.eqb_refl. reflexivity.
  - exists 50, {| os := quiet_display (ReadList [50]); current_brightness := 30 |}.
    cbn. repeat split. discriminate.
  - intros cfg target smooth m m' Hrun Hother.
    set (clamped := Z.max 1 (Z.min 100 target)) in *.
    unfold set_brightness, try_except in Hrun. fold clamped in Hrun.
    destruct (smooth && smooth_transition cfg) eqn:Esmooth.
    + unfold _smooth_brightness_change in Hrun.
      destruct (get_current_brightness (os m) =? clamped) eqn:Eread.
      { exfalso. apply Hother. apply andb_prop in Esmooth as [-> ->].
        apply Z.eqb_eq in Eread. auto. }
      rewrite bind_run in Hrun. unfold lift in Hrun.
      destruct (Py.truediv _ _) as [step_size|e]; [|discriminate].
      rewrite bind_run in Hrun.
      destruct (smooth_for _ _ _ m) as [[[]|e] m1]; [|discriminate].
      rewrite bind_run in Hrun.
      destruct (sbc_set_brightness clamped m1) as [[[]|e] m2]; [|discriminate].
      unfold store_current_brightness in Hrun. injection Hrun as <-. reflexivity.
    + rewrite bind_run in Hrun.
      destruct (sbc_set_brightness clamped m) as [[[]|e] m2]; [|discriminate].
      unfold store_current_brightness in Hrun. injection Hrun as <-. reflexivity.
Qed.

(** C9 at a display that reads 50 while the controller has 30 stored: a
    smooth request of 50 changes nothing, a direct request of 50 stores 50. *)
Lemma set_brightness_stored_value_witness :
  set_brightness CONFIG 50 true
    {| os := quiet_display (ReadList [50]); current_brightness := 30 |} =
  (Return tt, {| os := quiet_display (ReadList [50]); current_brightness := 30 |}) /\
  current_brightness
    (snd (set_brightness CONFIG 50 false
            {| os := quiet_display (ReadList [50]); current_brightness := 30 |})) = 50.
Proof.
  split.
  - exact (proj1 set_brightness_stored_value CONFIG 50
             {| os := quiet_display (ReadList [50]); current_brightness := 30 |}
             eq_refl eq_refl).
  - refine (proj2 (proj2 set_brightness_stored_value) CONFIG 50 false
              {| os := quiet_display (ReadList [50]); current_brightness := 30 |}
              _ eq_refl _).
    intros [H _]. discriminate H.
Defined.

End EffectClaims.

(** ** The numeric [brightness] field of [POST /brightness] *)

Section RouteClaims.

Import BrightnessController Routes.
Context `{ML : MathLib}.
Local Open Scope Q_scope.

(** Just above 1 the field is read as a percentage between 1% and 2%. *)
Lemma brightness_value_just_above_one (b : Q) :
  1 < b -> b <= 2 ->
  exists r : Z,
    brightness_value CONFIG_display_calibration b = Return r /\ (6 <= r <= 7)%Z.
Proof.
  intros H1 H2. unfold brightness_value.
  settle (Qle_bool b 1).
  assert (Hlo : 0.01 <= b / 100) by (apply Qle_shift_div_l; lra).
  assert (Hhi : b / 100 <= 0.02) by (apply Qle_shift_div_r; lra).
  assert (Hinc : increasing (map fst (calibration_lut CONFIG_display_calibration)))
    by (simpl; repeat split; reflexivity).
  assert (Hnd : nondecreasing (map snd (calibration_lut CONFIG_display_calibration)))
    by (simpl; repeat split; vm_compute; discriminate).
  destruct (calibrate_lut_monotone CONFIG_display_calibration 0.01 (b / 100)
              eq_refl ltac:(discriminate) Hinc Hnd Hlo) as (r1 & r & E1 & Er & Hle1).
  destruct (calibrate_lut_monotone CONFIG_display_calibration (b / 100) 0.02
              eq_refl ltac:(discriminate) Hinc Hnd Hhi) as (r' & r2 & Er' & E2 & Hle2).
  exists r. split; [exact Er|].
  assert (r' = r) by congruence. subst r'.
  assert (H6 : calibrate_brightness CONFIG_display_calibration 0.01 = Return 6%Z)
    by reflexivity.
  assert (H7 : calibrate_brightness CONFIG_display_calibration 0.02 = Return 7%Z)
    by reflexivity.
  rewrite H6 in E1. rewrite H7 in E2.
  injection E1 as <-. injection E2 as <-. lia.
Qed.

(** C10. A numeric [brightness] field that is at most 1 is calibrated as a
    fraction as it is, and a field greater than 1 is divided by 100 first;
    so 1 and 100 both give the calibration of full brightness (95), 2 gives
    the calibration of 2% (7), and every field above 1 and up to 2 gives 6
    or 7: the reading jumps at the boundary 1. *)
Theorem brightness_value_interpretation :
  (forall (cal : DisplayCalibration) (b : Q),
      b <= 1 -> brightness_value cal b = calibrate_brightness cal b) /\
  (forall (cal : DisplayCalibration) (b : Q),
      1 < b -> brightness_value cal b = calibrate_brightness cal (b / 100)) /\
  (brightness_value CONFIG_display_calibration 1 =
     calibrate_brightness CONFIG_display_calibration 1.0 /\
   brightness_value CONFIG_display_calibration 100 =
     calibrate_brightness CONFIG_display_calibration 1.0 /\
   calibrate_brightness CONFIG_display_calibration 1.0 = Return 95%Z) /\
  (brightness_value CONFIG_display_calibration 2 =
     calibrate_brightness CONFIG_display_calibration 0.02 /\
   calibrate_brightness CONFIG_display_calibration 0.02 = Return 7%Z) /\
  (forall b : Q, 1 < b -> b <= 2 ->
      exists r : Z,
        brightness_value CONFIG_display_calibration b = Return r /\ (6 <= r <= 7)%Z).
Proof.
  split; [|split; [|split; [|split]]].
  - intros cal b Hb. unfold brightness_value.
    now settle (Qle_bool b 1).
  - intros cal b Hb. unfold brightness_value.
    now settle (Qle_bool b 1).
  - repeat split; reflexivity.
  - repeat split; reflexivity.
  - exact brightness_value_just_above_one.
Qed.

End RouteClaims.

(** C10 at the fields 0.5, 50 and 1.5. *)
Lemma brightness_value_interpretation_witness :
  Routes.brightness_value (ML := sample_math) CONFIG_display_calibration 0.5 =
    BrightnessController.calibrate_brightness (ML := sample_math) CONFIG_display_calibration 0.5 /\
  Routes.brightness_value (ML := sample_math) CONFIG_display_calibration 50 =
    BrightnessController.calibrate_brightness (ML := sample_math) CONFIG_display_calibration (50 / 100) /\
  exists r : Z,
    Routes.brightness_value (ML := sample_math) CONFIG_display_calibration 1.5 = Return r /\
    (6 <= r <= 7)%Z.
Proof.
  pose proof (brightness_value_interpretation (ML := sample_math)) as (Hle & Hgt & _ & _ & Hjump).
  split; [|split].
  - apply Hle. vm_compute. discriminate.
  - apply Hgt. vm_compute. reflexivity.
  - apply Hjump; [vm_compute; reflexivity | vm_compute; discriminate].
Defined.

(** ** Rounding: the exact model against binary64 *)

Section Rounding.

Local Open Scope Q_scope.

(** With doubles too the configured table maps 0.0 to 5 and 1.0 to 95. *)
Lemma binary64_endpoints :
  binary64_lut 0.0 = Return 5%Z /\ binary64_lut 1.0 = Return 95%Z.
Proof. split; vm_compute; reflexivity. Qed.

(** With doubles too the numeric field reads 1 and 100 as full brightness
    and 2 as 2%. *)
Lemma binary64_brightness_value :
  map (fun q => Binary64.brightness_value CONFIG_display_calibration (Binary64.literal q))
      [1; 100; 2; 1.5]
  = [Return 95%Z; Return 95%Z; Return 7%Z; Return 6%Z].
Proof. vm_compute. reflexivity. Qed.

(** On the thousandths of the unit interval the doubles give a
    non-decreasing sequence of percentages. *)
Lemma binary64_monotone_on_grid :
  sorted (map (fun q => match binary64_lut q with Return r => r | Raise _ => (-1)%Z end)
              (grid 1000)) = true.
Proof. vm_compute. reflexivity. Qed.

(** Across every breakpoint of the configured table the doubles do not
    decrease: the percentage at the double just below the breakpoint, at the
    breakpoint and at the double just above it are in order. *)
Lemma binary64_monotone_across_breakpoints :
  forallb (fun p =>
             let x := Binary64.literal (fst p) in
             match Binary64.calibrate_brightness CONFIG_display_calibration (Binary64.pred x),
                   Binary64.calibrate_brightness CONFIG_display_calibration x,
                   Binary64.calibrate_brightness CONFIG_display_calibration (Binary64.succ x) with
             | Return below, Return at_x, Return above =>
                 (below <=? at_x)%Z && (at_x <=? above)%Z
             | _, _, _ => false
             end)
          (calibration_lut CONFIG_display_calibration) = true.
Proof. vm_compute. reflexivity. Qed.

(** On that grid the doubles and the exact model give the same percentage
    except at 0.075 and at 0.4, where the exact percentage is a whole number
    and the doubles fall just below it. *)
Lemma binary64_against_exact_on_grid :
  map (fun q => (q, exact_lut q, binary64_lut q))
      (List.filter (fun q => match exact_lut q, binary64_lut q with
                        | Return a, Return b => negb (a =? b)%Z
                        | _, _ => true
                        end) (grid 1000))
  = [(75 # 1000, Return 14%Z, Return 13%Z); (400 # 1000, Return 58%Z, Return 57%Z)].
Proof. vm_compute. reflexivity. Qed.

End Rounding.

(** * Further properties of the code *)

(** ** Calibration: saturation, errors, breakpoints *)

Section CalibrationMore.

Import BrightnessController.
Context `{ML : MathLib}.
Local Open Scope Q_scope.

Lemma unit_clamp_low (x : Q) : x <= 0 -> Py.max 0.0 (Py.min 1.0 x) = 0.0.
Proof.
  intros H. unfold Py.max, Py.min.
  settle (Py.Qlt_bool x 1.0). settle (Py.Qlt_bool 0.0 x). reflexivity.
Qed.

Lemma unit_clamp_high (x : Q) : 1 <= x -> Py.max 0.0 (Py.min 1.0 x) = 1.0.
Proof.
  intros H. unfold Py.max, Py.min.
  settle (Py.Qlt_bool x 1.0). reflexivity.
Qed.

(** X1. Inputs outside the unit interval saturate, in every curve mode and
    for every configuration: an input at or below 0 is calibrated as 0.0
    and an input at or above 1 as 1.0. *)
Theorem calibrate_brightness_saturates (cal : DisplayCalibration) (x : Q) :
  (x <= 0 -> calibrate_brightness cal x = calibrate_brightness cal 0.0) /\
  (1 <= x -> calibrate_brightness cal x = calibrate_brightness cal 1.0).
Proof.
  split; intros H; unfold calibrate_brightness.
  - rewrite (unit_clamp_low x H), (unit_clamp_low 0.0) by lra. reflexivity.
  - rewrite (unit_clamp_high x H), (unit_clamp_high 1.0) by lra. reflexivity.
Qed.

End CalibrationMore.

(** X1 at the inputs -3 and 7 with the configured table: 5 and 95. *)
Lemma calibrate_brightness_saturates_witness :
  BrightnessController.calibrate_brightness (ML := sample_math) CONFIG_display_calibration (-3) =
    Return 5 /\
  BrightnessController.calibrate_brightness (ML := sample_math) CONFIG_display_calibration 7 =
    Return 95.
Proof.
  split.
  - refine (proj1 (calibrate_brightness_saturates (ML := sample_math)
                     CONFIG_display_calibration (-3)) _).
    vm_compute. discriminate.
  - refine (proj2 (calibrate_brightness_saturates (ML := sample_math)
                     CONFIG_display_calibration 7) _).
    vm_compute. discriminate.
Defined.

Section CalibrationErrors.

Import BrightnessController.
Context `{ML : MathLib}.
Local Open Scope Q_scope.





End CalibrationErrors.


Section LutMore.

Import BrightnessController.
Context `{ML : MathLib}.
Local Open Scope Q_scope.





End LutMore.




(** ** The writes of a brightness change *)

Section Writes.

Import BrightnessController.
Local Open Scope list_scope.

Lemma attempt_length (f : nat -> Z -> option Py.exn) (n : nat) (vs : list Z) :
  (length (fst (attempt f n vs)) <= length vs)%nat.
Proof.
  revert n. induction vs as [|v rest IH]; intros n; cbn [attempt]; [cbn; lia|].
  destruct (f n v); [cbn; lia|].
  specialize (IH (S n)). destruct (attempt f (S n) rest). cbn in *. lia.
Qed.

Lemma attempt_written (P : Z -> Prop) (f : nat -> Z -> option Py.exn) (n : nat) (vs : list Z) :
  Forall P vs -> Forall (fun c => P (written c)) (fst (attempt f n vs)).
Proof.
  revert n. induction vs as [|v rest IH]; intros n Hall; cbn [attempt]; [constructor|].
  inversion Hall as [|? ? Hv Hrest]; subst.
  destruct (f n v); [repeat constructor; exact Hv|].
  specialize (IH (S n) Hrest). destruct (attempt f (S n) rest).
  constructor; [exact Hv | exact IH].
Qed.

(** The log of an attempt: all the writes when none fails, else the
    successful ones followed by the failed one. *)
Lemma attempt_shape (f : nat -> Z -> option Py.exn) (n : nat) (vs : list Z) :
  match snd (attempt f n vs) with
  | None => fst (attempt f n vs) = map SetOk vs
  | Some e => exists (oks : list Z) (v : Z),
      fst (attempt f n vs) = map SetOk oks ++ [SetRaised v e]
  end.
Proof.
  revert n. induction vs as [|v rest IH]; intros n; cbn [attempt]; [reflexivity|].
  destruct (f n v) as [e|]; [now exists [], v|].
  specialize (IH (S n)). destruct (attempt f (S n) rest) as [log [e|]]; cbn [fst snd] in *.
  - destruct IH as (oks & v' & ->). now exists (v :: oks), v'.
  - now rewrite IH.
Qed.

Lemma attempt_app (f : nat -> Z -> option Py.exn) (n : nat) (xs ys : list Z) :
  attempt f n (xs ++ ys) =
  match attempt f n xs with
  | (log, Some e) => (log, Some e)
  | (log, None) =>
      let '(log2, err2) := attempt f (n + length log) ys in (log ++ log2, err2)
  end.
Proof.
  revert n. induction xs as [|x xs IH]; intros n.
  - cbn. rewrite Nat.add_0_r. now destruct (attempt f n ys).
  - cbn [app attempt]. destruct (f n x); [reflexivity|].
    rewrite IH. destruct (attempt f (S n) xs) as [log [e|]]; [reflexivity|].
    cbn [length]. replace (n + S (length log))%nat with (S n + length log)%nat by lia.
    now destruct (attempt f (S n + length log) ys).
Qed.

(** The loop of the smooth change attempts its step values in order. *)
Lemma smooth_for_attempt (current : Z) (step_size : Q) (indices : list Z) (m : Machine) :
  smooth_for current step_size indices m =
  match attempt (fault (os m)) (length (calls (os m)))
                (map (step_value current step_size) indices) with
  | (log, Some e) => (Raise e, with_calls m log)
  | (log, None) => (Return tt, with_calls m log)
  end.
Proof.
  revert m. induction indices as [|i rest IH]; intros m.
  - cbn. now rewrite with_calls_nil.
  - cbn [smooth_for map attempt]. rewrite bind_run. unfold sbc_set_brightness.
    fold (step_value current step_size i).
    destruct (fault (os m) (length (calls (os m))) (step_value current step_size i)) as [e|];
      [reflexivity|].
    rewrite IH. cbn [os fault calls]. rewrite length_app. cbn [length].
    rewrite Nat.add_1_r.
    destruct (attempt (fault (os m)) (S (length (calls (os m))))
                (map (step_value current step_size) rest)) as [log [e|]];
      unfold with_calls; cbn [os fault calls reading current_brightness];
      now rewrite <- app_assoc.
Qed.

Lemma Qeq_bool_inject_Z (z : Z) : Qeq_bool (inject_Z z) 0 = (z =? 0).
Proof.
  unfold Qeq_bool, inject_Z. cbn [Qnum Qden]. rewrite Z.mul_1_r. now destruct z.
Qed.

(** [set_brightness] attempts its planned writes in order and stores the
    clamped target when all of them succeed; a smooth change to another
    value with no steps divides by zero before any write. *)
Lemma set_brightness_attempt (cfg : Config) (target : Z) (smooth : bool) (m : Machine) :
  let t := Z.max 1 (Z.min 100 target) in
  let current := get_current_brightness (os m) in
  let plan := planned_writes cfg current target smooth in
  set_brightness cfg target smooth m =
  if smooth && smooth_transition cfg && negb (current =? t) && (transition_steps cfg =? 0)
  then (Raise Py.ZeroDivisionError, m)
  else
    match attempt (fault (os m)) (length (calls (os m))) plan with
    | (log, Some e) => (Raise e, with_calls m log)
    | (log, None) =>
        (Return tt,
         {| os := os (with_calls m log);
            current_brightness :=
              match plan with [] => current_brightness m | _ => t end |})
    end.
Proof.
  intros t current plan. subst plan. unfold set_brightness, planned_writes, try_except.
  fold t. destruct (smooth && smooth_transition cfg); cbn [andb].
  - unfold _smooth_brightness_change. fold current.
    destruct (current =? t) eqn:Ecur; cbn [negb andb attempt].
    + destruct m as [[r f c] b]. unfold with_calls. cbn. now rewrite app_nil_r.
    + rewrite bind_run. unfold lift, Py.truediv. rewrite Qeq_bool_inject_Z.
      destruct (transition_steps cfg =? 0); [reflexivity|].
      rewrite bind_run, smooth_for_attempt, attempt_app.
      set (vs := map _ (Py.range (transition_steps cfg))).
      destruct (attempt (fault (os m)) (length (calls (os m))) vs) as [log [e|]];
        [reflexivity|].
      rewrite bind_run. unfold sbc_set_brightness, store_current_brightness.
      cbn [os fault calls with_calls current_brightness attempt].
      rewrite length_app.
      destruct (fault (os m) (length (calls (os m)) + length log)%nat t) as [e|].
      * unfold raise, with_calls. cbn. now rewrite <- app_assoc.
      * unfold with_calls. cbn. rewrite <- app_assoc.
        now destruct (vs ++ [t]) eqn:E; [destruct vs; discriminate|].
  - rewrite bind_run. unfold sbc_set_brightness, store_current_brightness. cbn [attempt].
    now destruct (fault (os m) (length (calls (os m))) t).
Qed.

Lemma planned_writes_range (cfg : Config) (current target : Z) (smooth : bool) :
  Forall (fun v => 1 <= v <= 100) (planned_writes cfg current target smooth).
Proof.
  unfold planned_writes.
  destruct (smooth && smooth_transition cfg); [|repeat constructor; lia].
  destruct (current =? Z.max 1 (Z.min 100 target)); [constructor|].
  apply Forall_app. split; [|repeat constructor; lia].
  apply List.Forall_forall. intros v Hin. apply in_map_iff in Hin as (i & <- & _).
  apply step_value_range.
Qed.

Lemma planned_writes_length (cfg : Config) (current target : Z) (smooth : bool) :
  (length (planned_writes cfg current target smooth) <=
   if smooth && smooth_transition cfg then Z.to_nat (transition_steps cfg) + 1 else 1)%nat.
Proof.
  unfold planned_writes.
  destruct (smooth && smooth_transition cfg); [|cbn; lia].
  destruct (current =? Z.max 1 (Z.min 100 target)); [cbn; lia|].
  rewrite length_app, length_map. unfold Py.range. rewrite length_map, length_seq. cbn. lia.
Qed.

(** X6. Whatever the display does, a call of [set_brightness] only appends
    to the log of display writes; every value it asks the display for lies
    in [1, 100], also when the requested target does not, and it makes at
    most one write when the change is direct and at most
    [transition_steps + 1] writes when it is smooth. *)
Theorem set_brightness_writes (cfg : Config) (target : Z) (smooth : bool) (m : Machine) :
  exists new : list SetCall,
    calls (os (snd (set_brightness cfg target smooth m))) = calls (os m) ++ new /\
    Forall (fun c => 1 <= written c <= 100) new /\
    (length new <=
     if smooth && smooth_transition cfg then Z.to_nat (transition_steps cfg) + 1 else 1)%nat.
Proof.
  pose proof (set_brightness_attempt cfg target smooth m) as Hrun. cbv zeta in Hrun.
  set (plan := planned_writes cfg (get_current_brightness (os m)) target smooth) in *.
  pose proof (attempt_written (fun v => 1 <= v <= 100) (fault (os m))
                (length (calls (os m))) plan (planned_writes_range _ _ _ _)) as Hrange.
  pose proof (attempt_length (fault (os m)) (length (calls (os m))) plan) as Hlen.
  pose proof (planned_writes_length cfg (get_current_brightness (os m)) target smooth) as Hplan.
  fold plan in Hplan. rewrite Hrun.
  destruct (smooth && smooth_transition cfg && _ && _).
  - exists []. cbn [snd]. rewrite app_nil_r. repeat split; [constructor | cbn; lia].
  - destruct (attempt (fault (os m)) (length (calls (os m))) plan) as [log [e|]];
      cbn [fst snd] in *; exists log; (repeat split; [exact Hrange | lia]).
Qed.


End Writes.


Section Transition.

Import BrightnessController.
Local Open Scope list_scope.





End Transition.


(** ** The schedule *)

Section Schedule.

Import BrightnessController.
Local Open Scope list_scope.

(** The order of [datetime.time] is total. *)
Lemma time_le_total (a b : dt_time) : time_le a b = false -> time_le b a = true.
Proof.
  unfold time_le.
  destruct (Z.ltb_spec (hour a) (hour b)); [discriminate|].
  destruct (Z.ltb_spec (hour b) (hour a)); [reflexivity|].
  destruct (Z.ltb_spec (minute a) (minute b)); [discriminate|].
  destruct (Z.ltb_spec (minute b) (minute a)); [reflexivity|].
  destruct (Z.ltb_spec (second a) (second b)); [discriminate|].
  destruct (Z.ltb_spec (second b) (second a)); [reflexivity|].
  intros Hmicro. apply Z.leb_gt in Hmicro. apply Z.leb_le. lia.
Qed.

Lemma time_based_for_cons (cfg : Config) (now : dt_time) (period : string)
    (config : TimeWindow) (rest : list (string * TimeWindow)) (s e : dt_time) :
  fromisoformat (start config) = Return s ->
  fromisoformat (end_ config) = Return e ->
  time_based_for cfg now ((period, config) :: rest) =
  if window_matches period s e now
  then Return (get_brightness_for_level cfg (level config))
  else time_based_for cfg now rest.
Proof. intros Hs He. cbn [time_based_for]. now rewrite Hs, He. Qed.


(** X9. With the configured windows, for every time of day: from 22:00 on
    and up to 06:00 the result is 10 (night); otherwise from 18:00 on it is
    40 (evening); otherwise up to 09:00 it is 60 (morning); otherwise it is
    80 (day).  The call never raises, the fallback after the loop is never
    reached, and the shared bounds 06:00 and 22:00 belong to the night,
    18:00 to the evening and 09:00 to the morning. *)
Theorem get_time_based_brightness_configured (now : dt_time) :
  get_time_based_brightness CONFIG now =
  Return (if time_le (clock 22 0) now || time_le now (clock 6 0) then 10
          else if time_le (clock 18 0) now then 40
          else if time_le now (clock 9 0) then 60
          else 80).
Proof.
  unfold get_time_based_brightness.
  change (time_based_brightness CONFIG) with CONFIG_time_based_brightness.
  unfold CONFIG_time_based_brightness.
  rewrite (time_based_for_cons _ _ _ _ _ (clock 22 0) (clock 6 0)) by reflexivity.
  change (window_matches "night" (clock 22 0) (clock 6 0) now)
    with (time_le (clock 22 0) now || time_le now (clock 6 0)).
  destruct (time_le (clock 22 0) now) eqn:E22; [reflexivity|].
  destruct (time_le now (clock 6 0)) eqn:E6; [reflexivity|].
  apply time_le_total in E22, E6. cbn [orb].
  rewrite (time_based_for_cons _ _ _ _ _ (clock 18 0) (clock 22 0)) by reflexivity.
  change (window_matches "evening" (clock 18 0) (clock 22 0) now)
    with (time_le (clock 18 0) now && time_le now (clock 22 0)).
  rewrite E22, andb_true_r.
  destruct (time_le (clock 18 0) now) eqn:E18; [reflexivity|].
  apply time_le_total in E18.
  rewrite (time_based_for_cons _ _ _ _ _ (clock 6 0) (clock 9 0)) by reflexivity.
  change (window_matches "morning" (clock 6 0) (clock 9 0) now)
    with (time_le (clock 6 0) now && time_le now (clock 9 0)).
  rewrite E6, andb_true_l.
  destruct (time_le now (clock 9 0)) eqn:E9; [reflexivity|].
  apply time_le_total in E9.
  rewrite (time_based_for_cons _ _ _ _ _ (clock 9 0) (clock 18 0)) by reflexivity.
  change (window_matches "day" (clock 9 0) (clock 18 0) now)
    with (time_le (clock 9 0) now && time_le now (clock 18 0)).
  rewrite E9, E18. reflexivity.
Qed.


End Schedule.


(** ** The routes *)

Section Outcome.

Import BrightnessController.
Local Open Scope list_scope.

(** The two ways [set_brightness] ends. *)
Lemma set_brightness_outcome (cfg : Config) (target : Z) (smooth : bool)
    (m m' : Machine) (r : Py.result unit) :
  set_brightness cfg target smooth m = (r, m') ->
  match r with
  | Return _ => m' = m \/ current_brightness m' = Z.max 1 (Z.min 100 target)
  | Raise e =>
      current_brightness m' = current_brightness m /\
      ((m' = m /\ e = Py.ZeroDivisionError /\ transition_steps cfg = 0) \/
       exists (oks : list Z) (v : Z),
         calls (os m') = calls (os m) ++ map SetOk oks ++ [SetRaised v e])
  end.
Proof.
  rewrite set_brightness_attempt.
  destruct (smooth && smooth_transition cfg && _ && (transition_steps cfg =? 0)) eqn:Ezero.
  - intros [= <- <-]. split; [reflexivity|]. left.
    apply andb_prop in Ezero as [_ Ez]. apply Z.eqb_eq in Ez. now repeat split.
  - pose proof (attempt_shape (fault (os m)) (length (calls (os m)))
        (planned_writes cfg (get_current_brightness (os m)) target smooth)) as Hshape.
    destruct (planned_writes cfg (get_current_brightness (os m)) target smooth) as [|w ws].
    + cbn [attempt]. intros [= <- <-]. left.
      destruct m as [[rd f c] b]. unfold with_calls. cbn. now rewrite app_nil_r.
    + destruct (attempt _ _ _) as [log [e'|]]; intros [= <- <-]; cbn [fst snd] in Hshape.
      * destruct Hshape as (oks & v & ->). split; [reflexivity|]. right. now exists oks, v.
      * right. reflexivity.
Qed.




End Outcome.

Section RouteProperties.

Import BrightnessController.
Import Handlers.
Context `{ML : MathLib} `{SL : StrLib}.
Local Open Scope list_scope.

Lemma lookup_size_nonzero (data : gmap string Json) (k : string) (v : Json) :
  data !! k = Some v -> Nat.eqb (size data) 0 = false.
Proof.
  intros Hk. apply Nat.eqb_neq. intros Hz. apply map_size_empty_iff in Hz. subst data.
  rewrite lookup_empty in Hk. discriminate.
Qed.

Lemma no_wrapper (data : gmap string Json) :
  (forall inner, data !! "" <> Some (JObject inner)) ->
  match data !! "" with
  | Some (JObject inner) => inner
  | _ => data
  end = data.
Proof.
  intros Hno. destruct (data !! "") as [[]|] eqn:E; try reflexivity.
  exfalso. now apply (Hno fields).
Qed.


(** X12. When the body has the key [brightness], the keys [level],
    [time_based] and [lux] are not looked at: two bodies with the same
    [brightness] and the same [smooth] get the same answer.  A [brightness]
    that is neither a string nor a number is answered 400 "Invalid
    brightness data" without touching the display, whatever else the body
    holds. *)
Theorem post_brightness_key_priority (cfg : Config) (now : dt_time)
    (data data' : gmap string Json) (b : Json) (m : Machine) :
  (forall inner, data !! "" <> Some (JObject inner)) ->
  (forall inner, data' !! "" <> Some (JObject inner)) ->
  data !! "brightness" = Some b -> data' !! "brightness" = Some b ->
  data !! "smooth" = data' !! "smooth" ->
  post_brightness cfg now (Some data) m = post_brightness cfg now (Some data') m /\
  (as_number b = None -> (forall s, b <> JString s) ->
   post_brightness cfg now (Some data) m = (BadRequest "Invalid brightness data", m)).
Proof.
  intros Hno Hno' Hb Hb' Hsmooth. unfold post_brightness.
  rewrite (lookup_size_nonzero data _ _ Hb), (lookup_size_nonzero data' _ _ Hb').
  cbv zeta. rewrite (no_wrapper data Hno), (no_wrapper data' Hno').
  unfold compute_value. rewrite Hb, Hb', Hsmooth. split; [reflexivity|].
  intros Hnum Hstr. destruct b; try discriminate Hnum; try reflexivity.
  exfalso. now apply (Hstr s).
Qed.

(** X13. A body that holds an object under the empty key, as Shortcuts
    sends it, is answered like that inner object alone, when the inner
    object is not empty and holds no object under the empty key itself; an
    empty inner object is answered 400 "Invalid brightness data". *)
Theorem post_brightness_shortcuts_wrapper (cfg : Config) (now : dt_time)
    (data inner : gmap string Json) (m : Machine) :
  data !! "" = Some (JObject inner) ->
  (size inner = 0%nat ->
   post_brightness cfg now (Some data) m = (BadRequest "Invalid brightness data", m)) /\
  (size inner <> 0%nat -> (forall deeper, inner !! "" <> Some (JObject deeper)) ->
   post_brightness cfg now (Some data) m = post_brightness cfg now (Some inner) m).
Proof.
  intros Hwrap. unfold post_brightness.
  rewrite (lookup_size_nonzero data _ _ Hwrap), Hwrap. cbv zeta. split.
  - intros Hempty. apply map_size_empty_iff in Hempty. subst inner.
    unfold compute_value. now rewrite !lookup_empty.
  - intros Hsize Hdeep. apply Nat.eqb_neq in Hsize. rewrite Hsize.
    now rewrite (no_wrapper inner Hdeep).
Qed.

(** X14. What [POST /brightness] does to the controller: a 400 answer
    leaves the display and the field untouched; a 500 answer leaves the field
    [current_brightness] as it was; in a 200 answer [previous_brightness] is
    the field read after the change, so unless the call changed nothing at
    all it is the clamped value just set, not the brightness before. *)
Theorem post_brightness_state (cfg : Config) (now : dt_time)
    (body : option (gmap string Json)) (m : Machine) :
  match post_brightness cfg now body m with
  | (Success v p, m') =>
      p = current_brightness m' /\ (m' = m \/ p = Z.max 1 (Z.min 100 v))
  | (BadRequest _, m') => m' = m
  | (ServerError _, m') => current_brightness m' = current_brightness m
  end.
Proof.
  unfold post_brightness. destruct body as [data|]; [|reflexivity].
  destruct (Nat.eqb (size data) 0); [reflexivity|]. cbv zeta.
  destruct (compute_value cfg now _) as [v| |error|e]; try reflexivity.
  destruct (set_brightness cfg v _ m) as [[u|e] m'] eqn:Erun;
    apply set_brightness_outcome in Erun.
  - split; [reflexivity | exact Erun].
  - exact (proj1 Erun).
Qed.




End RouteProperties.

Section AutoProperties.

Import BrightnessController.
Local Open Scope list_scope.


(** X17. The tray's [set_brightness_manual] never raises, whatever the
    display does; afterwards the field [current_brightness] holds the
    clamped value or is as it was. *)
Theorem set_brightness_manual_never_raises (cfg : Config) (value : Z) (m : Machine) :
  exists m' : Machine,
    Tray.set_brightness_manual cfg value m = (Return tt, m') /\
    (current_brightness m' = current_brightness m \/
     current_brightness m' = Z.max 1 (Z.min 100 value)).
Proof.
  unfold Tray.set_brightness_manual, try_except.
  destruct (set_brightness cfg value true m) as [[u|e] m'] eqn:Erun;
    apply set_brightness_outcome in Erun; exists m'; try destruct u.
  - split; [reflexivity|]. destruct Erun as [-> | ->]; [now left | now right].
  - split; [reflexivity|]. left. exact (proj1 Erun).
Qed.

End AutoProperties.


(** X12: a [lux] beside the [brightness] 0.5 changes nothing, and a null
    [brightness] beside the level "dark" is answered 400. *)
Lemma post_brightness_key_priority_witness :
  Handlers.post_brightness (ML := sample_math) (SL := sample_strings)
    CONFIG (clock 12 0) (Some half_and_lux_body) quiet_machine =
  Handlers.post_brightness (ML := sample_math) (SL := sample_strings)
    CONFIG (clock 12 0) (Some half_body) quiet_machine /\
  Handlers.post_brightness (ML := sample_math) (SL := sample_strings)
    CONFIG (clock 12 0) (Some null_and_level_body) quiet_machine =
  (BadRequest "Invalid brightness data", quiet_machine).
Proof.
  split.
  - refine (proj1 (post_brightness_key_priority (ML := sample_math) (SL := sample_strings)
                     CONFIG (clock 12 0) half_and_lux_body half_body (JFloat 0.5)
                     quiet_machine _ _ _ _ _)).
    + intros inner. vm_compute. discriminate.
    + intros inner. vm_compute. discriminate.
    + vm_compute. reflexivity.
    + vm_compute. reflexivity.
    + vm_compute. reflexivity.
  - refine (proj2 (post_brightness_key_priority (ML := sample_math) (SL := sample_strings)
                     CONFIG (clock 12 0) null_and_level_body null_and_level_body JNull
                     quiet_machine _ _ _ _ _) _ _).
    + intros inner. vm_compute. discriminate.
    + intros inner. vm_compute. discriminate.
    + vm_compute. reflexivity.
    + vm_compute. reflexivity.
    + reflexivity.
    + reflexivity.
    + intros s. discriminate.
Defined.

(** X13: the body that wraps [brightness] 0.5 under the empty key. *)
Lemma post_brightness_shortcuts_wrapper_witness :
  Handlers.post_brightness (ML := sample_math) (SL := sample_strings)
    CONFIG (clock 12 0) (Some shortcuts_body) quiet_machine =
  Handlers.post_brightness (ML := sample_math) (SL := sample_strings)
    CONFIG (clock 12 0) (Some half_body) quiet_machine.
Proof.
  refine (proj2 (post_brightness_shortcuts_wrapper (ML := sample_math) (SL := sample_strings)
                   CONFIG (clock 12 0) shortcuts_body half_body quiet_machine _) _ _).
  - vm_compute. reflexivity.
  - vm_compute. discriminate.
  - intros deeper. vm_compute. discriminate.
Defined.

(** ** The autostart entry *)

Section Autostart.

Import Tray.

(** X18. [toggle_autostart] touches only the value named "BrightnessSync"
    of the [Run] key.  When it answers [None] the registry is as it was;
    when it answers a boolean, that boolean is the new state
    [is_autostart_enabled] reports and the negation of the old one, and an
    enabled entry holds the program's path between double quotes. *)
Theorem toggle_autostart_reports (exe_path : string) (reg reg' : Registry) (r : option bool) :
  toggle_autostart exe_path reg = (r, reg') ->
  (forall name, name <> app_name -> run_values reg' !! name = run_values reg !! name) /\
  match r with
  | None => reg' = reg
  | Some b =>
      (open_error reg false = None ->
       is_autostart_enabled reg = negb b /\ is_autostart_enabled reg' = b) /\
      (b = true -> run_values reg' !! app_name = Some (quoted exe_path))
  end.
Proof.
  unfold toggle_autostart.
  destruct (open_error reg true); [intros [= <- <-]; now split|].
  destruct (run_values reg !! app_name) as [old|] eqn:Hold;
    (destruct (write_error reg); [intros [= <- <-]; now split|]);
    intros [= <- <-]; unfold is_autostart_enabled;
    cbn [with_values open_error write_error run_values]; (split; [|split]).
  - intros name Hname. now apply lookup_delete_ne.
  - intros ->. now rewrite Hold, lookup_delete_eq.
  - discriminate.
  - intros name Hname. now apply lookup_insert_ne.
  - intros ->. now rewrite Hold, lookup_insert_eq.
  - intros _. apply lookup_insert_eq.
Qed.

(** X19. On a registry where no call fails, toggling twice answers the
    new state and then the old one.  It restores the registry when there
    was no entry; when there was one, the second toggle writes the
    program's quoted path in its place, whatever the entry held. *)
Theorem toggle_autostart_twice (exe_path : string) (reg : Registry) :
  open_error reg true = None -> write_error reg = None ->
  let enabled := match run_values reg !! app_name with Some _ => true | None => false end in
  let first := toggle_autostart exe_path reg in
  let second := toggle_autostart exe_path (snd first) in
  fst first = Some (negb enabled) /\
  fst second = Some enabled /\
  (enabled = false -> snd second = reg) /\
  (enabled = true ->
   run_values (snd second) = <[app_name := quoted exe_path]> (run_values reg)).
Proof.
  intros Hopen Hwrite enabled first second. subst enabled first second.
  unfold toggle_autostart. rewrite Hopen, Hwrite.
  destruct (run_values reg !! app_name) as [old|] eqn:Hold;
    cbn [fst snd with_values open_error write_error run_values]; rewrite Hopen, Hwrite.
  - rewrite lookup_delete_eq. cbn [fst snd with_values run_values].
    repeat split; [discriminate|]. intros _. apply insert_delete_eq.
  - rewrite lookup_insert_eq. cbn [fst snd with_values run_values].
    repeat split; [|discriminate]. intros _.
    unfold with_values. cbn [open_error write_error run_values].
    rewrite delete_insert_id by exact Hold. now destruct reg.
Qed.

End Autostart.

(** X18 on a registry without the entry: the toggle answers [True], the
    entry holds the quoted path and the other program's entry stays. *)
Lemma toggle_autostart_reports_witness :
  let reg' := snd (Tray.toggle_autostart "tray.exe" plain_registry) in
  Tray.run_values reg' !! "Updater" = Some "updater.exe" /\
  Tray.is_autostart_enabled reg' = true /\
  Tray.run_values reg' !! Tray.app_name = Some (Tray.quoted "tray.exe").
Proof.
  intros reg'.
  destruct (toggle_autostart_reports "tray.exe" plain_registry reg' (Some true) eq_refl)
    as (Hframe & Hstate & Hvalue).
  split; [|split].
  - rewrite (Hframe "Updater"); [reflexivity | discriminate].
  - exact (proj2 (Hstate eq_refl)).
  - exact (Hvalue eq_refl).
Defined.

(** X19 on a registry with a stale entry: after two toggles the entry is
    the quoted path. *)
Lemma toggle_autostart_twice_witness :
  fst (Tray.toggle_autostart "tray.exe" stale_registry) = Some false /\
  Tray.run_values
    (snd (Tray.toggle_autostart "tray.exe"
            (snd (Tray.toggle_autostart "tray.exe" stale_registry)))) =
  <[Tray.app_name := Tray.quoted "tray.exe"]> (Tray.run_values stale_registry).
Proof.
  destruct (toggle_autostart_twice "tray.exe" stale_registry eq_refl eq_refl)
    as (Hfirst & _ & _ & Hvalues).
  split; [exact Hfirst | exact (Hvalues eq_refl)].
Defined.
